(** * Store API: a shallow embedding of [app/main.py]

    The service keeps four tables (products, carts, cart_items, favorites)
    behind a SQLAlchemy session and exposes them through FastAPI handlers.
    Each handler is embedded as a function from the store to a response
    and the store it leaves behind.  Python [int] is [Z], Python [float]
    is IEEE binary64 as given by [SpecFloat] with [prec = 53] and
    [emax = 1024], [str] is [string], and [None] is [option]. *)

From Stdlib Require Import ZArith List String Ascii Bool Lia.
From Stdlib Require Import Floats.SpecFloat.
Import ListNotations.

Local Open Scope Z_scope.

(** ** Python floats *)

Module PyFloat.

Definition prec : Z := 53.
Definition emax : Z := 1024.

Definition float := spec_float.

Definition zero : float := S754_zero false.
Definition add : float -> float -> float := SFadd prec emax.
Definition mul : float -> float -> float := SFmul prec emax.
Definition ltb : float -> float -> bool := SFltb.

(** [float(n)] for a Python int, as the mixed product [price * quantity]
    converts its right operand: the nearest binary64, ties to even.
    (From [2^1024] on Python raises OverflowError where this gives an
    infinity; a quantity is an INTEGER of the store, far below that.) *)
Definition of_int (n : Z) : float := binary_normalize prec emax n 0 false.

(** The binary64 nearest to [num / den] with sign [s] ([num >= 0]): the
    quotient is computed with more than 64 bits and a sticky last bit, so
    that the final rounding to 53 bits sees on which side of every
    midpoint the exact quotient lies. *)
Definition of_ratio (s : bool) (num : Z) (den : positive) : float :=
  match num with
  | Zpos _ =>
      let k := 64 + Z.log2 (Zpos den) in
      let scaled := num * 2 ^ k in
      let q := scaled / Zpos den in
      let sticky := if scaled mod Zpos den =? 0 then 0 else 1 in
      match 2 * q + sticky with
      | Zpos m => binary_round prec emax s m (- (k + 1))
      | _ => S754_zero s
      end
  | _ => S754_zero s
  end.

(** The integer nearest to [num / den] ([den > 0]), ties to the even one. *)
Definition round_half_even (num den : Z) : Z :=
  let q := num / den in
  match 2 * (num mod den) ?= den with
  | Lt => q
  | Gt => q + 1
  | Eq => if Z.even q then q else q + 1
  end.

(** The magnitude of a finite float [m * 2^e], counted in units of
    [10^-ndigits] and rounded to the nearest integer. *)
Definition scaled_units (m : positive) (e : Z) (ndigits : Z) : Z :=
  let '(num, den) :=
    if 0 <=? e then (Zpos m * 2 ^ e, 1) else (Zpos m, 2 ^ (- e)) in
  if 0 <=? ndigits
  then round_half_even (num * 10 ^ ndigits) den
  else round_half_even num (den * 10 ^ (- ndigits)).

(** The builtin [round(x, ndigits)] on a float: the exact value of [x] is
    rounded to [ndigits] decimals and the decimal result is read back as
    the nearest float; zeros, infinities and NaN are returned as they
    are. *)
Definition round (x : float) (ndigits : Z) : float :=
  match x with
  | S754_finite s m e =>
      let n := scaled_units m e ndigits in
      if 0 <=? ndigits
      then of_ratio s n (Z.to_pos (10 ^ ndigits))
      else of_ratio s (n * 10 ^ (- ndigits)) 1
  | _ => x
  end.

(** A decimal literal [digits * 10^-places], read as Python reads it. *)
Definition literal (digits : Z) (places : Z) : float :=
  match digits with
  | Zneg p => of_ratio true (Zpos p) (Z.to_pos (10 ^ places))
  | _ => of_ratio false digits (Z.to_pos (10 ^ places))
  end.

End PyFloat.

(** ** SQLAlchemy models: the rows of the four tables *)

Module ProductORM.
Record t := {
  id : Z;
  name : string;
  description : option string;
  price : PyFloat.float;
  discount_percentage : option PyFloat.float;
  rating : option PyFloat.float;
  stock : option Z;
  brand : option string;
  category : option string;
  thumbnail : option string;
  images : option string
}.
End ProductORM.

Module CartORM.
Record t := { id : Z }.
End CartORM.

Module CartItemORM.
Record t := { id : Z; cart_id : Z; product_id : Z; quantity : Z }.

(** The row after an assignment to [quantity]. *)
Definition set_quantity (ci : t) (q : Z) : t :=
  {| id := id ci; cart_id := cart_id ci;
     product_id := product_id ci; quantity := q |}.
End CartItemORM.

Module FavoriteORM.
Record t := { id : Z; product_id : Z }.
End FavoriteORM.

(** The store behind a session.  Each table is the list of its rows in
    the order a scan of the table yields them; a new row goes last. *)
Record Db := {
  products : list ProductORM.t;
  carts : list CartORM.t;
  cart_items : list CartItemORM.t;
  favorites : list FavoriteORM.t
}.

Definition empty_db : Db :=
  {| products := []; carts := []; cart_items := []; favorites := [] |}.

(** The constraints the schema declares: primary keys, and
    [unique=True] on [favorites.product_id]. *)
Record schema_ok (db : Db) : Prop := {
  products_pk : NoDup (map ProductORM.id (products db));
  carts_pk : NoDup (map CartORM.id (carts db));
  cart_items_pk : NoDup (map CartItemORM.id (cart_items db));
  favorites_pk : NoDup (map FavoriteORM.id (favorites db));
  favorites_unique : NoDup (map FavoriteORM.product_id (favorites db))
}.

(** ** Pydantic models *)

Module Product.
Record t := {
  name : string;
  description : option string;
  price : PyFloat.float;
  discount_percentage : option PyFloat.float;
  rating : option PyFloat.float;
  stock : option Z;
  brand : option string;
  category : option string;
  thumbnail : option string;
  images : option string;
  id : Z
}.

Definition model_validate (p : ProductORM.t) : t :=
  {| name := ProductORM.name p;
     description := ProductORM.description p;
     price := ProductORM.price p;
     discount_percentage := ProductORM.discount_percentage p;
     rating := ProductORM.rating p;
     stock := ProductORM.stock p;
     brand := ProductORM.brand p;
     category := ProductORM.category p;
     thumbnail := ProductORM.thumbnail p;
     images := ProductORM.images p;
     id := ProductORM.id p |}.
End Product.

(** Field constraints shared by [ProductBase] and [ProductUpdate]:
    [min_length=1, max_length=120], [max_length=500], [PositiveFloat]. *)
Definition name_ok (s : string) : bool :=
  let n := Z.of_nat (String.length s) in (1 <=? n) && (n <=? 120).

Definition description_ok (s : string) : bool :=
  Z.of_nat (String.length s) <=? 500.

Definition price_ok (x : PyFloat.float) : bool :=
  PyFloat.ltb PyFloat.zero x.

(** A request body field holds [None] when the JSON gives [null] (or, for
    a field with a default, nothing). *)
Module ProductCreate.
Record t := {
  name : option string;
  description : option string;
  price : option PyFloat.float;
  discount_percentage : option PyFloat.float;
  rating : option PyFloat.float;
  stock : option Z;
  brand : option string;
  category : option string;
  thumbnail : option string;
  images : option string
}.

(** [name: str] and [price: PositiveFloat] are required and not
    nullable; [description: str | None]. *)
Definition name_valid (v : option string) : bool :=
  match v with Some s => name_ok s | None => false end.

Definition description_valid (v : option string) : bool :=
  match v with Some s => description_ok s | None => true end.

Definition price_valid (v : option PyFloat.float) : bool :=
  match v with Some x => price_ok x | None => false end.

Definition valid (b : t) : bool :=
  name_valid (name b) && description_valid (description b)
  && price_valid (price b).
End ProductCreate.

Module ProductUpdate.
Inductive field := Name | Description | Price.

Definition field_eqb (a b : field) : bool :=
  match a, b with
  | Name, Name | Description, Description | Price, Price => true
  | _, _ => false
  end.

(** The three attributes and [model_fields_set], the fields the request
    body gave explicitly (a [null] included). *)
Record t := {
  name : option string;
  description : option string;
  price : option PyFloat.float;
  fields_set : list field
}.

Definition is_set (payload : t) (f : field) : bool :=
  existsb (field_eqb f) (fields_set payload).

(** Every field is [T | None] with default [None]. *)
Definition name_valid (v : option string) : bool :=
  match v with Some s => name_ok s | None => true end.

Definition description_valid (v : option string) : bool :=
  match v with Some s => description_ok s | None => true end.

Definition price_valid (v : option PyFloat.float) : bool :=
  match v with Some x => price_ok x | None => true end.

Definition valid (payload : t) : bool :=
  name_valid (name payload) && description_valid (description payload)
  && price_valid (price payload).

(** One entry of the dumped dict: a key with its value. *)
Inductive item :=
| name_item (v : option string)
| description_item (v : option string)
| price_item (v : option PyFloat.float).

Definition dump_field (payload : t) (f : field) : item :=
  match f with
  | Name => name_item (name payload)
  | Description => description_item (description payload)
  | Price => price_item (price payload)
  end.

(** [payload.model_dump(exclude_unset=True).items()], in field order. *)
Definition model_dump_exclude_unset (payload : t) : list item :=
  map (dump_field payload) (filter (is_set payload) [Name; Description; Price]).
End ProductUpdate.

Module CartItem.
Record t := { product_id : Z; quantity : Z }.

(** [quantity: PositiveInt]. *)
Definition valid (item : t) : bool := 0 <? quantity item.
End CartItem.

Module Cart.
Record t := { id : Z; items : list CartItem.t }.
End Cart.

Module CartSummary.
Record t := { id : Z; items : list CartItem.t; total : PyFloat.float }.
End CartSummary.

Module ProductPage.
Record t := {
  page : Z;
  pages : Z;
  limit : Z;
  total : Z;
  products : list Product.t
}.
End ProductPage.

(** ** Responses *)

(** What a call of a handler ends in: the value it returns with the
    status code of its route, an [HTTPException] it raises, the 422 of a
    request the framework rejects before the handler runs, or an
    [IntegrityError] of the store that no handler catches. *)
Inductive response (A : Type) : Type :=
| Response (status_code : Z) (body : A)
| HTTPException (status_code : Z) (detail : string)
| RequestValidationError
| IntegrityError.

Arguments Response {A} status_code body.
Arguments HTTPException {A} status_code detail.
Arguments RequestValidationError {A}.
Arguments IntegrityError {A}.

(** ** The session: reads and writes on the store *)

Definition get_product (db : Db) (product_id : Z) : option ProductORM.t :=
  find (fun p => ProductORM.id p =? product_id) (products db).

Definition get_cart (db : Db) (cart_id : Z) : option CartORM.t :=
  find (fun c => CartORM.id c =? cart_id) (carts db).

(** The relationship [CartORM.items]. *)
Definition CartORM_items (db : Db) (cart : CartORM.t) : list CartItemORM.t :=
  filter (fun ci => CartItemORM.cart_id ci =? CartORM.id cart) (cart_items db).

(** The relationship [ProductORM.items]. *)
Definition ProductORM_items (db : Db) (product : ProductORM.t)
  : list CartItemORM.t :=
  filter (fun ci => CartItemORM.product_id ci =? ProductORM.id product)
    (cart_items db).

(** The relationship [CartItemORM.product], loaded on access. *)
Definition CartItemORM_product (db : Db) (item : CartItemORM.t)
  : option ProductORM.t :=
  get_product db (CartItemORM.product_id item).

(** [db.query(FavoriteORM).filter(FavoriteORM.product_id == product_id)
    .first()] *)
Definition first_favorite (db : Db) (product_id : Z) : option FavoriteORM.t :=
  find (fun f => FavoriteORM.product_id f =? product_id) (favorites db).

(** The integer key the store gives a new row. *)
Definition next_id (ids : list Z) : Z := 1 + fold_right Z.max 0 ids.

Definition set_products (db : Db) (rows : list ProductORM.t) : Db :=
  {| products := rows; carts := carts db;
     cart_items := cart_items db; favorites := favorites db |}.

Definition set_carts (db : Db) (rows : list CartORM.t) : Db :=
  {| products := products db; carts := rows;
     cart_items := cart_items db; favorites := favorites db |}.

Definition set_cart_items (db : Db) (rows : list CartItemORM.t) : Db :=
  {| products := products db; carts := carts db;
     cart_items := rows; favorites := favorites db |}.

Definition set_favorites (db : Db) (rows : list FavoriteORM.t) : Db :=
  {| products := products db; carts := carts db;
     cart_items := cart_items db; favorites := rows |}.

(** Whether the primary key of [ci] is that of one of [items]. *)
Definition keyed_in (items : list CartItemORM.t) (ci : CartItemORM.t) : bool :=
  existsb (fun d => CartItemORM.id d =? CartItemORM.id ci) items.

(** [DELETE FROM cart_items WHERE id = ?], once for each of [items]. *)
Definition delete_cart_items (db : Db) (items : list CartItemORM.t) : Db :=
  set_cart_items db
    (filter (fun ci => negb (keyed_in items ci)) (cart_items db)).

(** [UPDATE cart_items SET quantity = ? WHERE id = ?] *)
Definition update_quantity (db : Db) (item_id : Z) (quantity : Z) : Db :=
  set_cart_items db
    (map
       (fun ci =>
          if CartItemORM.id ci =? item_id
          then CartItemORM.set_quantity ci quantity
          else ci)
       (cart_items db)).

(** The attributes of a loaded [ProductORM] object while a handler
    assigns to them.  Python lets [name] and [price] hold [None]; the
    columns are [Mapped[str]] and [Mapped[float]], hence NOT NULL, and the
    store refuses such a row when the session flushes it. *)
Module ProductObject.
Record t := {
  row : ProductORM.t;
  name : option string;
  description : option string;
  price : option PyFloat.float
}.

Definition load (p : ProductORM.t) : t :=
  {| row := p;
     name := Some (ProductORM.name p);
     description := ProductORM.description p;
     price := Some (ProductORM.price p) |}.

Definition setattr (o : t) (kv : ProductUpdate.item) : t :=
  match kv with
  | ProductUpdate.name_item v =>
      {| row := row o; name := v;
         description := description o; price := price o |}
  | ProductUpdate.description_item v =>
      {| row := row o; name := name o;
         description := v; price := price o |}
  | ProductUpdate.price_item v =>
      {| row := row o; name := name o;
         description := description o; price := v |}
  end.

(** The row the flush writes, or [None] when a NOT NULL column would
    get NULL. *)
Definition flush (o : t) : option ProductORM.t :=
  match name o, price o with
  | Some n, Some x =>
      Some {| ProductORM.id := ProductORM.id (row o);
              ProductORM.name := n;
              ProductORM.description := description o;
              ProductORM.price := x;
              ProductORM.discount_percentage :=
                ProductORM.discount_percentage (row o);
              ProductORM.rating := ProductORM.rating (row o);
              ProductORM.stock := ProductORM.stock (row o);
              ProductORM.brand := ProductORM.brand (row o);
              ProductORM.category := ProductORM.category (row o);
              ProductORM.thumbnail := ProductORM.thumbnail (row o);
              ProductORM.images := ProductORM.images (row o) |}
  | _, _ => None
  end.
End ProductObject.

(** [UPDATE products SET ... WHERE id = ?] *)
Definition write_product (db : Db) (p : ProductORM.t) : Db :=
  set_products db
    (map (fun r => if ProductORM.id r =? ProductORM.id p then p else r)
       (products db)).

(** ** The engine *)

Section Engine.

(** The engine is created by [app/database.py], which decides two things
    the handlers depend on: whether the FOREIGN KEY constraints of the
    schema are enforced, and whether LIKE reads a backslash in a pattern
    as an escape character (PostgreSQL and MySQL do, SQLite does not). *)
Variable foreign_keys : bool.
Variable backslash_escapes : bool.

(** ** SQL pattern matching *)

Definition lower_char (c : ascii) : ascii :=
  let n := nat_of_ascii c in
  if (Nat.leb 65 n && Nat.leb n 90)%bool then ascii_of_nat (n + 32) else c.

Fixpoint lower (s : string) : string :=
  match s with
  | EmptyString => EmptyString
  | String c s' => String (lower_char c) (lower s')
  end.

(** [subject LIKE pattern], as it is sent with no ESCAPE clause: [%]
    stands for any run of characters, [_] for any one character.  Where
    the engine reads the backslash as an escape, the character after it
    stands for itself (and a backslash that ends the pattern for a
    backslash; the patterns built here end in [%]).  Every other
    character stands for itself. *)
Fixpoint like (pattern subject : string) : bool :=
  match pattern with
  | EmptyString =>
      match subject with EmptyString => true | String _ _ => false end
  | String c rest =>
      if (c =? "\")%char && backslash_escapes
      then match rest, subject with
           | String c' rest', String d s' => (c' =? d)%char && like rest' s'
           | EmptyString, String d EmptyString => (c =? d)%char
           | _, _ => false
           end
      else if (c =? "%")%char
      then (fix skip (s : string) : bool :=
              like rest s
              || match s with
                 | EmptyString => false
                 | String _ s' => skip s'
                 end) subject
      else match subject with
           | EmptyString => false
           | String d s' => ((c =? "_")%char || (c =? d)%char) && like rest s'
           end
  end.

(** [column.ilike(pattern)]: both sides are lower-cased; on a NULL column
    the result is NULL, here [None]. *)
Definition ilike (column : option string) (pattern : string) : option bool :=
  match column with
  | Some s => Some (like (lower pattern) (lower s))
  | None => None
  end.

(** SQL's three-valued OR. *)
Definition sql_or (a b : option bool) : option bool :=
  match a, b with
  | Some true, _ | _, Some true => Some true
  | Some false, Some false => Some false
  | _, _ => None
  end.

Definition or_ (clauses : list (option bool)) : option bool :=
  fold_right sql_or (Some false) clauses.

(** A WHERE clause keeps the rows on which it is true. *)
Definition where_ (clause : option bool) : bool :=
  match clause with Some true => true | _ => false end.

(** Truth value of a string: [if q:] holds for a non-empty [q]. *)
Definition truthy (q : string) : bool :=
  match q with
  | EmptyString => false
  | String _ _ => true
  end.

(** ** Helper function *)

(** [calculate_cart_total]: the loop over [cart_orm.items], then
    [round(total, 2)]. *)
Definition calculate_cart_total (db : Db) (cart_orm : CartORM.t)
  : PyFloat.float :=
  let total :=
    fold_left
      (fun total item =>
         match CartItemORM_product db item with
         | Some product =>
             PyFloat.add total
               (PyFloat.mul (ProductORM.price product)
                  (PyFloat.of_int (CartItemORM.quantity item)))
         | None => total
         end)
      (CartORM_items db cart_orm) PyFloat.zero in
  PyFloat.round total 2.

(** ** Endpoints *)

(** The WHERE clause of the search, for one row. *)
Definition search_clause (q : string) (p : ProductORM.t) : option bool :=
  let search_term := ("%" ++ q ++ "%")%string in
  or_ [ ilike (Some (ProductORM.name p)) search_term;
        ilike (ProductORM.description p) search_term;
        ilike (ProductORM.brand p) search_term;
        ilike (ProductORM.category p) search_term ].

(** The rows of [query] in [list_products], before offset and limit. *)
Definition product_query (db : Db) (q : option string) : list ProductORM.t :=
  match q with
  | Some s =>
      if truthy s
      then filter (fun p => where_ (search_clause s p)) (products db)
      else products db
  | None => products db
  end.

Definition list_products (q : option string) (page limit : Z) (db : Db)
  : response ProductPage.t :=
  if negb ((1 <=? page) && (1 <=? limit) && (limit <=? 100))
  then RequestValidationError
  else
    let query := product_query db q in
    let total := Z.of_nat (List.length query) in
    let pages := if total =? 0 then 0 else (total + limit - 1) / limit in
    let offset := (page - 1) * limit in
    let products := firstn (Z.to_nat limit) (skipn (Z.to_nat offset) query) in
    Response 200
      {| ProductPage.page := page;
         ProductPage.pages := pages;
         ProductPage.limit := limit;
         ProductPage.total := total;
         ProductPage.products := map Product.model_validate products |}.

Definition get_product_endpoint (product_id : Z) (db : Db)
  : response Product.t :=
  match get_product db product_id with
  | None => HTTPException 404 "Product not found"
  | Some product => Response 200 (Product.model_validate product)
  end.

Definition create_product (payload : ProductCreate.t) (db : Db)
  : response Product.t * Db :=
  match ProductCreate.name payload, ProductCreate.price payload with
  | Some name, Some price =>
      if ProductCreate.valid payload
      then
        let product :=
          {| ProductORM.id := next_id (map ProductORM.id (products db));
             ProductORM.name := name;
             ProductORM.description := ProductCreate.description payload;
             ProductORM.price := price;
             ProductORM.discount_percentage :=
               ProductCreate.discount_percentage payload;
             ProductORM.rating := ProductCreate.rating payload;
             ProductORM.stock := ProductCreate.stock payload;
             ProductORM.brand := ProductCreate.brand payload;
             ProductORM.category := ProductCreate.category payload;
             ProductORM.thumbnail := ProductCreate.thumbnail payload;
             ProductORM.images := ProductCreate.images payload |} in
        (Response 201 (Product.model_validate product),
         set_products db (products db ++ [product]))
      else (RequestValidationError, db)
  | _, _ => (RequestValidationError, db)
  end.

Definition update_product (product_id : Z) (payload : ProductUpdate.t)
  (db : Db) : response Product.t * Db :=
  if negb (ProductUpdate.valid payload) then (RequestValidationError, db)
  else
    match get_product db product_id with
    | None => (HTTPException 404 "Product not found", db)
    | Some product =>
        let object :=
          fold_left ProductObject.setattr
            (ProductUpdate.model_dump_exclude_unset payload)
            (ProductObject.load product) in
        match ProductObject.flush object with
        | None => (IntegrityError, db)
        | Some product' =>
            (Response 200 (Product.model_validate product'),
             write_product db product')
        end
    end.

(** Deleting the product deletes the rows of its [items] relationship
    ([cascade="all, delete-orphan"]), then the product row.  A favorite
    is reached by no relationship of [ProductORM], and its foreign key
    declares no ON DELETE action. *)
Definition delete_product (product_id : Z) (db : Db) : response unit * Db :=
  match get_product db product_id with
  | None => (HTTPException 404 "Product not found", db)
  | Some product =>
      let db1 := delete_cart_items db (ProductORM_items db product) in
      let db2 :=
        set_products db1
          (filter (fun p => negb (ProductORM.id p =? ProductORM.id product))
             (products db1)) in
      if foreign_keys
         && existsb
              (fun f => FavoriteORM.product_id f =? ProductORM.id product)
              (favorites db2)
      then (IntegrityError, db)
      else (Response 204 tt, db2)
  end.

End Engine.

Definition pydantic_items (items : list CartItemORM.t) : list CartItem.t :=
  map
    (fun item =>
       {| CartItem.product_id := CartItemORM.product_id item;
          CartItem.quantity := CartItemORM.quantity item |})
    items.

Definition list_carts (db : Db) : response (list CartSummary.t) :=
  Response 200
    (map
       (fun cart =>
          let total := calculate_cart_total db cart in
          {| CartSummary.id := CartORM.id cart;
             CartSummary.items := pydantic_items (CartORM_items db cart);
             CartSummary.total := total |})
       (carts db)).

Definition create_cart (db : Db) : response Cart.t * Db :=
  let cart_orm := {| CartORM.id := next_id (map CartORM.id (carts db)) |} in
  (Response 201 {| Cart.id := CartORM.id cart_orm; Cart.items := [] |},
   set_carts db (carts db ++ [cart_orm])).

Definition get_cart_endpoint (cart_id : Z) (db : Db)
  : response CartSummary.t :=
  match get_cart db cart_id with
  | None => HTTPException 404 "Cart not found"
  | Some cart =>
      let total := calculate_cart_total db cart in
      let items := pydantic_items (CartORM_items db cart) in
      Response 200
        {| CartSummary.id := CartORM.id cart;
           CartSummary.items := items;
           CartSummary.total := total |}
  end.

Definition add_cart_item (cart_id : Z) (item : CartItem.t) (db : Db)
  : response CartSummary.t * Db :=
  if negb (CartItem.valid item) then (RequestValidationError, db)
  else
    match get_cart db cart_id with
    | None => (HTTPException 404 "Cart not found", db)
    | Some cart =>
        match get_product db (CartItem.product_id item) with
        | None => (HTTPException 404 "Product not found", db)
        | Some product =>
            let existing :=
              find
                (fun ci =>
                   CartItemORM.product_id ci =? CartItem.product_id item)
                (CartORM_items db cart) in
            let db' :=
              match existing with
              | Some existing =>
                  update_quantity db (CartItemORM.id existing)
                    (CartItemORM.quantity existing + CartItem.quantity item)
              | None =>
                  let cart_item :=
                    {| CartItemORM.id :=
                         next_id (map CartItemORM.id (cart_items db));
                       CartItemORM.cart_id := CartORM.id cart;
                       CartItemORM.product_id := CartItem.product_id item;
                       CartItemORM.quantity := CartItem.quantity item |} in
                  set_cart_items db (cart_items db ++ [cart_item])
              end in
            let items := pydantic_items (CartORM_items db' cart) in
            let total := calculate_cart_total db' cart in
            (Response 200
               {| CartSummary.id := CartORM.id cart;
                  CartSummary.items := items;
                  CartSummary.total := total |},
             db')
        end
    end.

Definition remove_cart_item (cart_id product_id : Z) (db : Db)
  : response CartSummary.t * Db :=
  match get_cart db cart_id with
  | None => (HTTPException 404 "Cart not found", db)
  | Some cart =>
      let item :=
        find (fun ci => CartItemORM.product_id ci =? product_id)
          (CartORM_items db cart) in
      let db' :=
        match item with
        | Some item => delete_cart_items db [item]
        | None => db
        end in
      let items := pydantic_items (CartORM_items db' cart) in
      let total := calculate_cart_total db' cart in
      (Response 200
         {| CartSummary.id := CartORM.id cart;
            CartSummary.items := items;
            CartSummary.total := total |},
       db')
  end.

Definition delete_cart (cart_id : Z) (db : Db) : response unit * Db :=
  match get_cart db cart_id with
  | None => (HTTPException 404 "Cart not found", db)
  | Some cart =>
      let db1 := delete_cart_items db (CartORM_items db cart) in
      (Response 204 tt,
       set_carts db1
         (filter (fun c => negb (CartORM.id c =? CartORM.id cart))
            (carts db1)))
  end.


Definition add_favorite (product_id : Z) (db : Db)
  : response Product.t * Db :=
  match get_product db product_id with
  | None => (HTTPException 404 "Product not found", db)
  | Some product =>
      match first_favorite db product_id with
      | Some existing => (Response 201 (Product.model_validate product), db)
      | None =>
          let favorite :=
            {| FavoriteORM.id := next_id (map FavoriteORM.id (favorites db));
               FavoriteORM.product_id := product_id |} in
          (Response 201 (Product.model_validate product),
           set_favorites db (favorites db ++ [favorite]))
      end
  end.

Definition remove_favorite (product_id : Z) (db : Db) : response unit * Db :=
  match first_favorite db product_id with
  | None => (HTTPException 404 "Favorite not found", db)
  | Some favorite =>
      (Response 204 tt,
       set_favorites db
         (filter (fun f => negb (FavoriteORM.id f =? FavoriteORM.id favorite))
            (favorites db)))
  end.

(** ** Specification-side notions *)

(** [ceil(total / limit)] for a positive [limit], by floor division. *)
Definition ceil_ratio (total limit : Z) : Z := - ((- total) / limit).

Definition cart_exists (db : Db) (cart_id : Z) : Prop :=
  In cart_id (map CartORM.id (carts db)).

Definition product_exists (db : Db) (product_id : Z) : Prop :=
  In product_id (map ProductORM.id (products db)).

(** The line-items of one (cart, product) pair. *)
Definition lines (db : Db) (cart_id product_id : Z) : list CartItemORM.t :=
  filter
    (fun ci =>
       (CartItemORM.cart_id ci =? cart_id)
       && (CartItemORM.product_id ci =? product_id))
    (cart_items db).

(** The quantity a cart holds of a product: that of its line-item, [0]
    without one. *)
Definition held (db : Db) (cart_id product_id : Z) : Z :=
  match lines db cart_id product_id with
  | line :: _ => CartItemORM.quantity line
  | [] => 0
  end.

(** At most one line-item per (cart, product) pair. *)
Definition one_line_per_pair (db : Db) : Prop :=
  forall cart_id product_id,
    (List.length (lines db cart_id product_id) <= 1)%nat.


(** ** The scenario of the specification: one product, one cart *)

Definition widget : ProductCreate.t :=
  {| ProductCreate.name := Some "Widget"%string;
     ProductCreate.description := None;
     ProductCreate.price := Some (PyFloat.literal 999 2);
     ProductCreate.discount_percentage := None;
     ProductCreate.rating := None;
     ProductCreate.stock := None;
     ProductCreate.brand := None;
     ProductCreate.category := None;
     ProductCreate.thumbnail := None;
     ProductCreate.images := None |}.

Definition item_of (product_id quantity : Z) : CartItem.t :=
  {| CartItem.product_id := product_id; CartItem.quantity := quantity |}.

(** After [POST /products] with the widget and [POST /carts]. *)
Definition shop : Db :=
  snd (create_cart (snd (create_product widget empty_db))).

(** After [POST /carts/1/items] with three widgets. *)
Definition shop_with_three : Db := snd (add_cart_item 1 (item_of 1 3) shop).

(** The favorite rows of one product. *)
Definition favorites_of (db : Db) (product_id : Z) : list FavoriteORM.t :=
  filter (fun f => FavoriteORM.product_id f =? product_id) (favorites db).

(** The widget, favorited. *)
Definition shop_with_favorite : Db := snd (add_favorite 1 shop).

(** The body [{"name": null}] of a PUT request. *)
Definition null_name : ProductUpdate.t :=
  {| ProductUpdate.name := None;
     ProductUpdate.description := None;
     ProductUpdate.price := None;
     ProductUpdate.fields_set := [ProductUpdate.Name] |}.

(** The body [{"price": 12.5}] of a PUT request. *)
Definition new_price : ProductUpdate.t :=
  {| ProductUpdate.name := None;
     ProductUpdate.description := None;
     ProductUpdate.price := Some (PyFloat.literal 125 1);
     ProductUpdate.fields_set := [ProductUpdate.Price] |}.

(** A payload gives no [null] for a NOT NULL column. *)
Definition no_null_given (payload : ProductUpdate.t) : Prop :=
  (ProductUpdate.is_set payload ProductUpdate.Name = true ->
   ProductUpdate.name payload <> None)
  /\ (ProductUpdate.is_set payload ProductUpdate.Price = true ->
      ProductUpdate.price payload <> None).

(** A field of the row after an update: the payload's value when the
    payload sets the field, the old value otherwise. *)
Definition chosen {A} (payload : ProductUpdate.t) (f : ProductUpdate.field)
  (given old : A) : A :=
  if ProductUpdate.is_set payload f then given else old.






(** The row [create_product widget] stores. *)
Definition widget_row : ProductORM.t :=
  {| ProductORM.id := 1;
     ProductORM.name := "Widget";
     ProductORM.description := None;
     ProductORM.price := PyFloat.literal 999 2;
     ProductORM.discount_percentage := None;
     ProductORM.rating := None;
     ProductORM.stock := None;
     ProductORM.brand := None;
     ProductORM.category := None;
     ProductORM.thumbnail := None;
     ProductORM.images := None |}.

(** What a line-item adds to the total of its cart: price times
    quantity, nothing when its product row is missing. *)
Definition line_amounts (db : Db) (items : list CartItemORM.t)
  : list PyFloat.float :=
  flat_map
    (fun item =>
       match CartItemORM_product db item with
       | Some product =>
           [PyFloat.mul (ProductORM.price product)
              (PyFloat.of_int (CartItemORM.quantity item))]
       | None => []
       end)
    items.

(** [sum(amounts, 0.0)]: float additions from left to right. *)
Definition float_sum (amounts : list PyFloat.float) : PyFloat.float :=
  fold_left PyFloat.add amounts PyFloat.zero.


(** The store without the line-items whose product row is missing. *)
Definition without_broken_lines (db : Db) : Db :=
  set_cart_items db
    (filter
       (fun ci =>
          match CartItemORM_product db ci with
          | Some _ => true
          | None => false
          end)
       (cart_items db)).

(** A cart with a line-item of two widgets and a line-item whose product
    row is not in the store. *)
Definition shop_with_broken_line : Db :=
  set_cart_items shop
    [ {| CartItemORM.id := 1; CartItemORM.cart_id := 1;
         CartItemORM.product_id := 1; CartItemORM.quantity := 2 |};
      {| CartItemORM.id := 2; CartItemORM.cart_id := 1;
         CartItemORM.product_id := 4; CartItemORM.quantity := 6 |} ].

(** ** Runs of the service *)

(** The requests that write to the store. *)
Inductive request :=
| CreateProduct (payload : ProductCreate.t)
| UpdateProduct (product_id : Z) (payload : ProductUpdate.t)
| DeleteProduct (product_id : Z)
| CreateCart
| AddCartItem (cart_id : Z) (item : CartItem.t)
| RemoveCartItem (cart_id product_id : Z)
| DeleteCart (cart_id : Z)
| AddFavorite (product_id : Z)
| RemoveFavorite (product_id : Z).

(** The store after one request, whatever the response. *)
Definition handle (foreign_keys : bool) (r : request) (db : Db) : Db :=
  match r with
  | CreateProduct payload => snd (create_product payload db)
  | UpdateProduct product_id payload =>
      snd (update_product product_id payload db)
  | DeleteProduct product_id => snd (delete_product foreign_keys product_id db)
  | CreateCart => snd (create_cart db)
  | AddCartItem cart_id item => snd (add_cart_item cart_id item db)
  | RemoveCartItem cart_id product_id =>
      snd (remove_cart_item cart_id product_id db)
  | DeleteCart cart_id => snd (delete_cart cart_id db)
  | AddFavorite product_id => snd (add_favorite product_id db)
  | RemoveFavorite product_id => snd (remove_favorite product_id db)
  end.

Definition run (foreign_keys : bool) (requests : list request) (db : Db) : Db :=
  fold_left (fun db r => handle foreign_keys r db) requests db.

(** ** Notions for the rest of the handlers *)

(** Every line-item refers to a cart and a product of the store: what the
    two foreign keys of [cart_items] ask for. *)
Definition lines_refer (db : Db) : Prop :=
  forall ci, In ci (cart_items db) ->
    cart_exists db (CartItemORM.cart_id ci)
    /\ product_exists db (CartItemORM.product_id ci).

(** The stored rows satisfy what the request models check: the field
    constraints of [ProductBase] and [quantity: PositiveInt]. *)
Definition product_row_valid (p : ProductORM.t) : bool :=
  name_ok (ProductORM.name p)
  && match ProductORM.description p with
     | Some s => description_ok s
     | None => true
     end
  && price_ok (ProductORM.price p).

Definition data_valid (db : Db) : Prop :=
  (forall p, In p (products db) -> product_row_valid p = true)
  /\ (forall ci, In ci (cart_items db) -> 1 <= CartItemORM.quantity ci).

(** The products one page of the listing carries, nothing on an error. *)
Definition page_products (backslash_escapes : bool) (q : option string)
  (page limit : Z) (db : Db) : list Product.t :=
  match list_products backslash_escapes q page limit db with
  | Response _ body => ProductPage.products body
  | _ => []
  end.

(** The summary [get_cart] and [list_carts] build for a cart. *)
Definition summary_of (db : Db) (cart : CartORM.t) : CartSummary.t :=
  {| CartSummary.id := CartORM.id cart;
     CartSummary.items := pydantic_items (CartORM_items db cart);
     CartSummary.total := calculate_cart_total db cart |}.

(** ** The copy script [seed_render_products.py]

    The script reads every product of a remote instance of the service
    through its paginated listing and posts each one to a local
    instance.  The bodies travel as JSON; the model takes a fetched
    product to be the [Product] the remote service answered and a
    posted body to be what the local [create_product] receives. *)

Module SeedRender.







End SeedRender.


(** Three hundred and one products, which the listing serves in four
    pages of at most a hundred. *)
Definition many_products : Db :=
  set_products empty_db
    (map
       (fun i =>
          {| ProductORM.id := Z.of_nat i;
             ProductORM.name := "Widget";
             ProductORM.description := None;
             ProductORM.price := PyFloat.literal 999 2;
             ProductORM.discount_percentage := None;
             ProductORM.rating := None;
             ProductORM.stock := None;
             ProductORM.brand := None;
             ProductORM.category := None;
             ProductORM.thumbnail := None;
             ProductORM.images := None |})
       (seq 1 301)).

(** The body [{}] of a PUT request: no field is set. *)
Definition empty_update : ProductUpdate.t :=
  {| ProductUpdate.name := None;
     ProductUpdate.description := None;
     ProductUpdate.price := None;
     ProductUpdate.fields_set := [] |}.

(** * Properties *)

(** ** Pagination *)


Lemma ceil_ratio_least (total limit : Z) :
  0 < limit ->
  total <= ceil_ratio total limit * limit
  /\ (ceil_ratio total limit - 1) * limit < total.
Proof.
  intros Hl. unfold ceil_ratio.
  pose proof (Z.div_mod (- total) limit ltac:(lia)) as E.
  pose proof (Z.mod_pos_bound (- total) limit Hl) as B.
  nia.
Qed.







(** ** Reading the store *)

Lemma find_some_iff {A} (f : A -> bool) (l : list A) :
  find f l <> None <-> exists x, In x l /\ f x = true.
Proof.
  split.
  - destruct (find f l) as [x|] eqn:E; [|congruence].
    intros _. exists x. now apply find_some in E.
  - intros [x [Hin Hf]] E. eapply find_none in E; eauto. congruence.
Qed.

Lemma get_cart_id (db : Db) (cart_id : Z) (cart : CartORM.t) :
  get_cart db cart_id = Some cart -> CartORM.id cart = cart_id.
Proof.
  unfold get_cart. intros E. apply find_some in E. now apply Z.eqb_eq.
Qed.

Lemma get_product_id (db : Db) (product_id : Z) (product : ProductORM.t) :
  get_product db product_id = Some product ->
  ProductORM.id product = product_id.
Proof.
  unfold get_product. intros E. apply find_some in E. now apply Z.eqb_eq.
Qed.

Lemma get_cart_exists (db : Db) (cart_id : Z) :
  get_cart db cart_id <> None <-> cart_exists db cart_id.
Proof.
  unfold get_cart, cart_exists. rewrite find_some_iff, in_map_iff.
  split; intros [x H]; exists x; rewrite Z.eqb_eq in *; tauto.
Qed.

Lemma get_product_exists (db : Db) (product_id : Z) :
  get_product db product_id <> None <-> product_exists db product_id.
Proof.
  unfold get_product, product_exists. rewrite find_some_iff, in_map_iff.
  split; intros [x H]; exists x; rewrite Z.eqb_eq in *; tauto.
Qed.

Lemma find_filter {A} (f g : A -> bool) (l : list A) :
  find f (filter g l) = hd_error (filter (fun x => g x && f x) l).
Proof.
  induction l as [|x l IH]; simpl; [reflexivity|].
  destruct (g x); simpl; [|exact IH]. destruct (f x); simpl; auto.
Qed.

Lemma filter_map_stable {A} (f : A -> bool) (g : A -> A) (l : list A) :
  (forall x, f (g x) = f x) -> filter f (map g l) = map g (filter f l).
Proof.
  intros H. induction l as [|x l IH]; simpl; [reflexivity|].
  rewrite H. destruct (f x); simpl; now rewrite IH.
Qed.

(** The line-item [add_cart_item] and [remove_cart_item] look for is the
    first line of the pair. *)
Lemma existing_line (db : Db) (cart : CartORM.t) (product_id : Z) :
  find (fun ci => CartItemORM.product_id ci =? product_id)
    (CartORM_items db cart)
  = hd_error (lines db (CartORM.id cart) product_id).
Proof. unfold CartORM_items, lines. apply find_filter. Qed.

(** ** Adding to a cart *)

Lemma lines_update_quantity (db : Db) (item_id q cart_id product_id : Z) :
  lines (update_quantity db item_id q) cart_id product_id
  = map
      (fun ci =>
         if CartItemORM.id ci =? item_id
         then CartItemORM.set_quantity ci q else ci)
      (lines db cart_id product_id).
Proof.
  unfold lines, update_quantity. simpl. apply filter_map_stable.
  intros ci. now destruct (CartItemORM.id ci =? item_id).
Qed.

Lemma lines_insert (db : Db) (ci : CartItemORM.t) (cart_id product_id : Z) :
  lines (set_cart_items db (cart_items db ++ [ci])) cart_id product_id
  = lines db cart_id product_id
    ++ (if (CartItemORM.cart_id ci =? cart_id)
           && (CartItemORM.product_id ci =? product_id)
        then [ci] else []).
Proof. unfold lines. simpl. rewrite filter_app. reflexivity. Qed.

(** What a call that passes validation and both lookups does to the
    store. *)
Lemma add_cart_item_store
  (db : Db) (cart_id : Z) (item : CartItem.t)
  (cart : CartORM.t) (product : ProductORM.t) :
  CartItem.valid item = true ->
  get_cart db cart_id = Some cart ->
  get_product db (CartItem.product_id item) = Some product ->
  snd (add_cart_item cart_id item db)
  = match hd_error (lines db cart_id (CartItem.product_id item)) with
    | Some existing =>
        update_quantity db (CartItemORM.id existing)
          (CartItemORM.quantity existing + CartItem.quantity item)
    | None =>
        set_cart_items db
          (cart_items db
           ++ [ {| CartItemORM.id :=
                     next_id (map CartItemORM.id (cart_items db));
                   CartItemORM.cart_id := cart_id;
                   CartItemORM.product_id := CartItem.product_id item;
                   CartItemORM.quantity := CartItem.quantity item |} ])
    end.
Proof.
  intros Hv Hc Hp. unfold add_cart_item. rewrite Hv, Hc, Hp. simpl.
  rewrite existing_line. rewrite (get_cart_id _ _ _ Hc).
  now destruct (hd_error (lines db cart_id (CartItem.product_id item))).
Qed.

(** A call that is refused leaves the store as it was. *)
Lemma add_cart_item_refused (db : Db) (cart_id : Z) (item : CartItem.t) :
  CartItem.valid item = false
  \/ get_cart db cart_id = None
  \/ get_product db (CartItem.product_id item) = None ->
  snd (add_cart_item cart_id item db) = db.
Proof.
  unfold add_cart_item. intros [H|[H|H]].
  - now rewrite H.
  - rewrite H. now destruct (CartItem.valid item).
  - rewrite H. destruct (CartItem.valid item); [|reflexivity].
    now destruct (get_cart db cart_id).
Qed.

Lemma add_cart_item_keeps_one_line
  (db : Db) (cart_id : Z) (item : CartItem.t) :
  one_line_per_pair db ->
  one_line_per_pair (snd (add_cart_item cart_id item db)).
Proof.
  intros Inv.
  destruct (CartItem.valid item) eqn:Hv;
    [|now rewrite add_cart_item_refused by auto].
  destruct (get_cart db cart_id) as [cart|] eqn:Hc;
    [|now rewrite add_cart_item_refused by auto].
  destruct (get_product db (CartItem.product_id item)) as [product|] eqn:Hp;
    [|now rewrite add_cart_item_refused by auto].
  rewrite (add_cart_item_store _ _ _ _ _ Hv Hc Hp).
  destruct (hd_error (lines db cart_id (CartItem.product_id item)))
    as [existing|] eqn:He; intros c p.
  - rewrite lines_update_quantity, length_map. apply Inv.
  - rewrite lines_insert, length_app. cbn [CartItemORM.cart_id
      CartItemORM.product_id].
    destruct (Z.eqb_spec cart_id c) as [->|]; simpl;
      [|specialize (Inv c p); lia].
    destruct (Z.eqb_spec (CartItem.product_id item) p) as [<-|]; simpl;
      [|specialize (Inv c p); lia].
    destruct (lines db c (CartItem.product_id item)); [simpl; lia|discriminate].
Qed.











(** ** Removing from a cart *)

Lemma keyed_in_single (item ci : CartItemORM.t) :
  keyed_in [item] ci = (CartItemORM.id item =? CartItemORM.id ci).
Proof. unfold keyed_in. simpl. apply orb_false_r. Qed.

Lemma filter_other_keys (l : list CartItemORM.t) (item : CartItemORM.t) :
  ~ In (CartItemORM.id item) (map CartItemORM.id l) ->
  filter (fun ci => negb (keyed_in [item] ci)) l = l.
Proof.
  induction l as [|y l IH]; intros Hn; [reflexivity|].
  cbn [filter]. rewrite keyed_in_single.
  destruct (Z.eqb_spec (CartItemORM.id item) (CartItemORM.id y)) as [e|_].
  - exfalso. apply Hn. left. now rewrite e.
  - cbn [negb]. rewrite IH; [reflexivity|]. intros H. apply Hn. now right.
Qed.

Lemma filter_not_id_split (l : list CartItemORM.t) (item : CartItemORM.t) :
  NoDup (map CartItemORM.id l) -> In item l ->
  exists before after,
    l = before ++ item :: after
    /\ filter (fun ci => negb (keyed_in [item] ci)) l = before ++ after.
Proof.
  intros Hnd Hin. induction l as [|x l IH]; [contradiction|].
  cbn [map] in Hnd. inversion Hnd as [|? ? Hx Hl]; subst.
  cbn [filter]. rewrite keyed_in_single.
  destruct Hin as [->|Hin].
  - exists [], l. split; [reflexivity|]. rewrite Z.eqb_refl. cbn [negb app].
    now apply filter_other_keys.
  - destruct (IH Hl Hin) as [before [after [E F]]].
    exists (x :: before), after. split; [now rewrite E|].
    destruct (Z.eqb_spec (CartItemORM.id item) (CartItemORM.id x)) as [e|_].
    + exfalso. apply Hx. rewrite <- e. now apply in_map.
    + cbn [negb]. now rewrite F.
Qed.

(** C8. [remove_cart_item] raises 404 if and only if the cart does not
    exist.  For an existing cart it answers 200 with the summary read
    from the store it leaves: the store as it was when the cart holds no
    line-item for the product, and otherwise the store with exactly one
    row of [cart_items] taken out, the first line-item of the cart for
    that product, the other tables as they were. *)
Theorem remove_cart_item_cases (db : Db) (cart_id product_id : Z) :
  NoDup (map CartItemORM.id (cart_items db)) ->
  let result := remove_cart_item cart_id product_id db in
  ((exists detail, fst result = HTTPException 404 detail)
   <-> ~ cart_exists db cart_id)
  /\ (~ cart_exists db cart_id ->
      result = (HTTPException 404 "Cart not found", db))
  /\ (cart_exists db cart_id ->
      exists cart,
        get_cart db cart_id = Some cart
        /\ fst result
           = Response 200
               {| CartSummary.id := cart_id;
                  CartSummary.items :=
                    pydantic_items (CartORM_items (snd result) cart);
                  CartSummary.total :=
                    calculate_cart_total (snd result) cart |}
        /\ match lines db cart_id product_id with
           | [] => snd result = db
           | item :: _ =>
               exists before after,
                 cart_items db = before ++ item :: after
                 /\ snd result = set_cart_items db (before ++ after)
           end).
Proof.
  intros Hpk result. subst result. rewrite <- get_cart_exists.
  unfold remove_cart_item.
  destruct (get_cart db cart_id) as [cart|] eqn:Ec.
  - rewrite existing_line, (get_cart_id _ _ _ Ec). cbn [fst snd].
    split; [split|split].
    + intros [detail H]. discriminate H.
    + intros H. exfalso. apply H. congruence.
    + intros H. exfalso. apply H. congruence.
    + intros _. exists cart. split; [reflexivity|]. split; [reflexivity|].
      destruct (lines db cart_id product_id) as [|item rest] eqn:El;
        cbn [hd_error]; [reflexivity|].
      assert (Hin : In item (cart_items db)).
      { assert (H : In item (lines db cart_id product_id))
          by (rewrite El; now left).
        unfold lines in H. now apply filter_In in H. }
      destruct (filter_not_id_split _ item Hpk Hin) as [before [after [E F]]].
      exists before, after. split; [exact E|].
      unfold delete_cart_items. now rewrite F.
  - cbn [fst snd]. split; [split|split].
    + intros _. congruence.
    + intros _. eexists. reflexivity.
    + reflexivity.
    + congruence.
Qed.

Lemma remove_cart_item_cases_witness :
  NoDup (map CartItemORM.id (cart_items shop_with_three))
  /\ remove_cart_item 8 1 shop_with_three
     = (HTTPException 404 "Cart not found", shop_with_three)
  /\ exists cart,
       get_cart shop_with_three 1 = Some cart
       /\ fst (remove_cart_item 1 1 shop_with_three)
          = Response 200
              {| CartSummary.id := 1;
                 CartSummary.items :=
                   pydantic_items
                     (CartORM_items
                        (snd (remove_cart_item 1 1 shop_with_three)) cart);
                 CartSummary.total :=
                   calculate_cart_total
                     (snd (remove_cart_item 1 1 shop_with_three)) cart |}.
Proof.
  assert (Hpk : NoDup (map CartItemORM.id (cart_items shop_with_three)))
    by (repeat constructor; simpl; tauto).
  split; [exact Hpk|split].
  - apply (remove_cart_item_cases shop_with_three 8 1 Hpk).
    intros [H|[]]. discriminate H.
  - destruct (remove_cart_item_cases shop_with_three 1 1 Hpk)
      as [_ [_ Hfound]].
    destruct (Hfound ltac:(left; reflexivity)) as [cart [Ec [Er _]]].
    exists cart. split; [exact Ec|exact Er].
Defined.

(** ** Favorites *)

Lemma first_favorite_of (db : Db) (product_id : Z) :
  first_favorite db product_id = hd_error (favorites_of db product_id).
Proof.
  unfold first_favorite, favorites_of.
  induction (favorites db) as [|f l IH]; simpl; [reflexivity|].
  now destruct (FavoriteORM.product_id f =? product_id).
Qed.

Lemma favorites_of_absent (l : list FavoriteORM.t) (product_id : Z) :
  ~ In product_id (map FavoriteORM.product_id l) ->
  filter (fun f => FavoriteORM.product_id f =? product_id) l = [].
Proof.
  induction l as [|f l IH]; intros Hn; simpl; [reflexivity|].
  destruct (Z.eqb_spec (FavoriteORM.product_id f) product_id) as [e|_].
  - exfalso. apply Hn. now left.
  - apply IH. intros H. apply Hn. now right.
Qed.

(** Under the unique constraint a product has at most one favorite row. *)
Lemma favorites_of_unique (db : Db) (product_id : Z) :
  NoDup (map FavoriteORM.product_id (favorites db)) ->
  (List.length (favorites_of db product_id) <= 1)%nat.
Proof.
  unfold favorites_of.
  induction (favorites db) as [|f l IH]; intros Hnd; simpl; [lia|].
  inversion Hnd as [|? ? Hf Hl]; subst.
  destruct (Z.eqb_spec (FavoriteORM.product_id f) product_id) as [e|_];
    [|now apply IH].
  rewrite favorites_of_absent by now rewrite <- e. simpl. lia.
Qed.

(** C6. Under the unique constraint of the favorites table,
    [add_favorite] on an existing product answers 201 with the product,
    and so does a second call, which leaves the store of the first; the
    product then has exactly one favorite row.  On a product that does
    not exist it raises 404 and leaves the store, favorites included, as
    it was. *)
Theorem add_favorite_idempotent (db : Db) (product_id : Z) :
  NoDup (map FavoriteORM.product_id (favorites db)) ->
  let first := add_favorite product_id db in
  let second := add_favorite product_id (snd first) in
  match get_product db product_id with
  | Some product =>
      product_exists db product_id
      /\ fst first = Response 201 (Product.model_validate product)
      /\ fst second = Response 201 (Product.model_validate product)
      /\ snd second = snd first
      /\ List.length (favorites_of (snd second) product_id) = 1%nat
  | None =>
      ~ product_exists db product_id
      /\ first = (HTTPException 404 "Product not found", db)
  end.
Proof.
  intros Huniq first second.
  pose proof (get_product_exists db product_id) as Hex.
  pose proof (favorites_of_unique db product_id Huniq) as Hone.
  subst second first. unfold add_favorite.
  destruct (get_product db product_id) as [product|] eqn:Ep.
  - split; [apply Hex; congruence|].
    rewrite first_favorite_of.
    destruct (favorites_of db product_id) as [|f rest] eqn:Ef; cbn [hd_error].
    + cbn [fst snd]. unfold get_product in *. cbn [set_favorites products].
      rewrite Ep. rewrite first_favorite_of.
      unfold favorites_of in *. cbn [set_favorites favorites].
      rewrite filter_app, Ef. cbn [FavoriteORM.product_id filter app].
      rewrite Z.eqb_refl. cbn [hd_error fst snd]. repeat split.
      cbn [set_favorites favorites]. rewrite filter_app, Ef.
      cbn [FavoriteORM.product_id filter app]. now rewrite Z.eqb_refl.
    + cbn [fst snd]. rewrite Ep, first_favorite_of, Ef. cbn [hd_error fst snd].
      repeat split. rewrite Ef. simpl in Hone |- *. lia.
  - split; [|reflexivity]. intros H. apply Hex in H. congruence.
Qed.

Lemma add_favorite_idempotent_witness :
  NoDup (map FavoriteORM.product_id (favorites shop))
  /\ product_exists shop 1
  /\ List.length
       (favorites_of (snd (add_favorite 1 (snd (add_favorite 1 shop)))) 1)
     = 1%nat
  /\ ~ product_exists shop 5
  /\ add_favorite 5 shop = (HTTPException 404 "Product not found", shop).
Proof.
  assert (Huniq : NoDup (map FavoriteORM.product_id (favorites shop)))
    by constructor.
  pose proof (add_favorite_idempotent shop 1 Huniq) as Hfound.
  pose proof (add_favorite_idempotent shop 5 Huniq) as Hmissing.
  split; [exact Huniq|].
  split; [exact (proj1 Hfound)|].
  split; [exact (proj2 (proj2 (proj2 (proj2 Hfound))))|].
  exact Hmissing.
Defined.

(** ** Deleting a product *)

Lemma delete_cart_items_gone (db : Db) (items : list CartItemORM.t)
  (ci : CartItemORM.t) :
  In ci items -> ~ In ci (cart_items (delete_cart_items db items)).
Proof.
  intros Hin H. unfold delete_cart_items in H.
  cbn [set_cart_items cart_items] in H.
  apply filter_In in H. destruct H as [_ H].
  apply negb_true_iff in H. unfold keyed_in in H.
  assert (T : existsb (fun d => CartItemORM.id d =? CartItemORM.id ci) items
              = true)
    by (apply existsb_exists; exists ci; split; [exact Hin|apply Z.eqb_refl]).
  congruence.
Qed.

(** X20. The part of Delete the relationships carry out: without a favorite
    row for the product, [delete_product] answers 204, the product is
    gone and no line-item refers to it; the favorites table is not
    touched.  An absent product gives 404 and no change. *)
Lemma delete_product_cascade (foreign_keys : bool) (db : Db) (product_id : Z) :
  let result := delete_product foreign_keys product_id db in
  (product_exists db product_id -> favorites_of db product_id = [] ->
   fst result = Response 204 tt
   /\ ~ product_exists (snd result) product_id
   /\ (forall ci, In ci (cart_items (snd result)) ->
       CartItemORM.product_id ci <> product_id)
   /\ favorites (snd result) = favorites db
   /\ carts (snd result) = carts db)
  /\ (~ product_exists db product_id ->
      result = (HTTPException 404 "Product not found", db)).
Proof.
  intros result. subst result. unfold delete_product.
  rewrite <- get_product_exists.
  destruct (get_product db product_id) as [product|] eqn:Ep.
  - rewrite (get_product_id _ _ _ Ep).
    split; [|intros H; exfalso; apply H; congruence].
    intros _ Hfav. unfold favorites_of in Hfav.
    cbn [set_products delete_cart_items set_cart_items favorites products].
    replace (existsb _ (favorites db)) with false.
    2:{ symmetry. apply not_true_is_false. intros H.
        apply existsb_exists in H. destruct H as [f [Hin Hf]].
        assert (In f (filter (fun f => FavoriteORM.product_id f =? product_id)
                        (favorites db))) as Hf' by (apply filter_In; auto).
        rewrite Hfav in Hf'. exact Hf'. }
    rewrite andb_false_r. cbn [fst snd products cart_items favorites carts].
    repeat split.
    + unfold product_exists. cbn [products]. rewrite in_map_iff.
      intros [p [Hid Hin]]. apply filter_In in Hin. destruct Hin as [_ Hne].
      rewrite Hid, Z.eqb_refl in Hne. discriminate Hne.
    + intros ci Hin Hci.
      assert (Hitem : In ci (ProductORM_items db product)).
      { unfold ProductORM_items. apply filter_In. split.
        - now apply filter_In in Hin.
        - rewrite (get_product_id _ _ _ Ep). now apply Z.eqb_eq. }
      exact (delete_cart_items_gone db _ ci Hitem Hin).
  - split; [intros H; congruence|reflexivity].
Qed.

(** C2, on the store of the scenario with the widget favorited: whether
    or not the engine enforces foreign keys, the favorite row of product
    1 is still there after [delete_product 1].  With enforcement the
    commit fails and nothing is deleted; without it the product goes
    and the favorite row keeps pointing at its id. *)
Theorem delete_product_keeps_favorite (foreign_keys : bool) :
  let result := delete_product foreign_keys 1 shop_with_favorite in
  product_exists shop_with_favorite 1
  /\ favorites_of (snd result) 1
     = [ {| FavoriteORM.id := 1; FavoriteORM.product_id := 1 |} ]
  /\ (if foreign_keys
      then fst result = IntegrityError /\ snd result = shop_with_favorite
      else fst result = Response 204 tt
           /\ ~ product_exists (snd result) 1).
Proof.
  destruct foreign_keys; cbv zeta.
  - split; [left; reflexivity|]. split; [reflexivity|]. split; reflexivity.
  - split; [left; reflexivity|]. split; [reflexivity|].
    split; [reflexivity|]. intros H. exact H.
Qed.

(** ** Updating a product *)

Lemma write_product_other (db : Db) (p : ProductORM.t) (other : Z) :
  other <> ProductORM.id p ->
  get_product (write_product db p) other = get_product db other.
Proof.
  intros Hne. unfold get_product, write_product. cbn [set_products products].
  induction (products db) as [|r l IH]; simpl; [reflexivity|].
  destruct (Z.eqb_spec (ProductORM.id r) (ProductORM.id p)) as [e|_].
  - destruct (Z.eqb_spec (ProductORM.id p) other) as [e'|_]; [congruence|].
    destruct (Z.eqb_spec (ProductORM.id r) other) as [e'|_]; [congruence|].
    exact IH.
  - destruct (ProductORM.id r =? other); [reflexivity|exact IH].
Qed.

Lemma write_product_same (db : Db) (old p : ProductORM.t) (product_id : Z) :
  get_product db product_id = Some old ->
  ProductORM.id p = product_id ->
  get_product (write_product db p) product_id = Some p.
Proof.
  intros Ho <-. revert Ho.
  unfold get_product, write_product. cbn [set_products products].
  induction (products db) as [|r l IH]; simpl; [discriminate|].
  destruct (Z.eqb_spec (ProductORM.id r) (ProductORM.id p)) as [e|n].
  - intros _. now rewrite Z.eqb_refl.
  - destruct (Z.eqb_spec (ProductORM.id r) (ProductORM.id p)) as [e|_];
      [contradiction|exact IH].
Qed.

(** X19. The part of Update that holds: a payload that passes validation and
    gives no [null] for [name] or [price] is written, on an existing
    product, field by field.  Each of the three fields takes the
    payload's value if the payload sets it and keeps its value
    otherwise; the other columns and the other products keep theirs; the
    values written pass the validation Create applies to them.  On an
    absent id the answer is 404 and the store is unchanged. *)
Lemma update_product_frame
  (db : Db) (product_id : Z) (payload : ProductUpdate.t) :
  ProductUpdate.valid payload = true ->
  match get_product db product_id with
  | None =>
      update_product product_id payload db
      = (HTTPException 404 "Product not found", db)
  | Some old =>
      no_null_given payload ->
      exists new,
        update_product product_id payload db
        = (Response 200 (Product.model_validate new), write_product db new)
        /\ get_product (write_product db new) product_id = Some new
        /\ (forall other, other <> product_id ->
            get_product (write_product db new) other = get_product db other)
        /\ Some (ProductORM.name new)
           = chosen payload ProductUpdate.Name
               (ProductUpdate.name payload) (Some (ProductORM.name old))
        /\ ProductORM.description new
           = chosen payload ProductUpdate.Description
               (ProductUpdate.description payload) (ProductORM.description old)
        /\ Some (ProductORM.price new)
           = chosen payload ProductUpdate.Price
               (ProductUpdate.price payload) (Some (ProductORM.price old))
        /\ ProductORM.id new = ProductORM.id old
        /\ ProductORM.discount_percentage new
           = ProductORM.discount_percentage old
        /\ ProductORM.rating new = ProductORM.rating old
        /\ ProductORM.stock new = ProductORM.stock old
        /\ ProductORM.brand new = ProductORM.brand old
        /\ ProductORM.category new = ProductORM.category old
        /\ ProductORM.thumbnail new = ProductORM.thumbnail old
        /\ ProductORM.images new = ProductORM.images old
        /\ (ProductUpdate.is_set payload ProductUpdate.Name = true ->
            ProductCreate.name_valid (ProductUpdate.name payload) = true)
        /\ (ProductUpdate.is_set payload ProductUpdate.Description = true ->
            ProductCreate.description_valid (ProductUpdate.description payload)
            = true)
        /\ (ProductUpdate.is_set payload ProductUpdate.Price = true ->
            ProductCreate.price_valid (ProductUpdate.price payload) = true)
  end.
Proof.
  intros Hv. unfold update_product. rewrite Hv. cbn [negb].
  destruct (get_product db product_id) as [old|] eqn:Eo; [|reflexivity].
  intros [Hname Hprice].
  pose proof (get_product_id _ _ _ Eo) as Hid. subst product_id.
  unfold ProductUpdate.valid in Hv. apply andb_true_iff in Hv.
  destruct Hv as [Hv Hvp]. apply andb_true_iff in Hv. destruct Hv as [Hvn Hvd].
  unfold ProductUpdate.model_dump_exclude_unset, chosen. cbn [filter].
  destruct (ProductUpdate.is_set payload ProductUpdate.Name) eqn:Sn;
  destruct (ProductUpdate.is_set payload ProductUpdate.Description) eqn:Sd;
  destruct (ProductUpdate.is_set payload ProductUpdate.Price) eqn:Sp;
  cbn [map fold_left ProductUpdate.dump_field ProductObject.setattr
       ProductObject.load ProductObject.flush ProductObject.name
       ProductObject.price ProductObject.description ProductObject.row];
  try (destruct (ProductUpdate.name payload) as [n|] eqn:En;
       [|exfalso; now apply Hname]);
  try (destruct (ProductUpdate.price payload) as [x|] eqn:Ex;
       [|exfalso; now apply Hprice]);
  (eexists; split; [reflexivity|];
   split; [eapply write_product_same; [exact Eo|reflexivity]|];
   split; [intros other Hother; apply write_product_other;
           exact Hother|];
   cbn [ProductORM.name ProductORM.description ProductORM.price ProductORM.id
        ProductORM.discount_percentage ProductORM.rating ProductORM.stock
        ProductORM.brand ProductORM.category ProductORM.thumbnail
        ProductORM.images];
   repeat split; try discriminate; try intros _; auto).
Qed.

(** ** Search *)

Section Like.

Variable backslash_escapes : bool.













End Like.

Lemma NoDup_map_filter {A B} (f : A -> B) (g : A -> bool) (l : list A) :
  NoDup (map f l) -> NoDup (map f (filter g l)).
Proof.
  induction l as [|x l IH]; intros Hnd; simpl; [constructor|].
  inversion Hnd as [|? ? Hx Hl]; subst.
  destruct (g x); simpl; [|now apply IH].
  constructor; [|now apply IH].
  intros H. apply Hx. apply in_map_iff in H. destruct H as [y [E Hy]].
  apply filter_In in Hy. rewrite <- E. apply in_map. tauto.
Qed.

Example shop_products : products shop = [widget_row].
Proof. reflexivity. Qed.




(** C5, on the store of the scenario: the body [{"name": null}] passes
    the validation of [ProductUpdate], which the validation of Create
    refuses for [name]; the handler assigns [None] to [name], the commit
    violates NOT NULL, and the call ends in an unhandled
    [IntegrityError] with nothing changed. *)
Theorem update_product_null_name :
  product_exists shop 1
  /\ ProductUpdate.is_set null_name ProductUpdate.Name = true
  /\ ProductUpdate.valid null_name = true
  /\ ProductCreate.name_valid (ProductUpdate.name null_name) = false
  /\ update_product 1 null_name shop = (IntegrityError, shop).
Proof.
  split; [left; reflexivity|]. repeat split.
Qed.

(** ** The cart total *)




Lemma calculate_cart_total_loop (db : Db) (items : list CartItemORM.t)
  (start : PyFloat.float) :
  fold_left
    (fun total item =>
       match CartItemORM_product db item with
       | Some product =>
           PyFloat.add total
             (PyFloat.mul (ProductORM.price product)
                (PyFloat.of_int (CartItemORM.quantity item)))
       | None => total
       end)
    items start
  = fold_left PyFloat.add (line_amounts db items) start.
Proof.
  revert start. induction items as [|item items IH]; intros start; simpl;
    [reflexivity|].
  rewrite IH. now destruct (CartItemORM_product db item).
Qed.



(** ** The scenario of the specification, run on the model *)

(** With the backslash as escape the query [\] makes the pattern [%\%],
    which asks for a final percent sign; without it, for a backslash
    anywhere. *)
Example backslash_query :
  ilike true (Some "50%"%string) ("%" ++ "\" ++ "%") = Some true
  /\ ilike false (Some "50%"%string) ("%" ++ "\" ++ "%") = Some false
  /\ ilike false (Some "a\b"%string) ("%" ++ "\" ++ "%") = Some true.
Proof. repeat split. Qed.

Example scenario_create_product :
  fst (create_product widget empty_db)
  = Response 201 (Product.model_validate widget_row).
Proof. reflexivity. Qed.

Example scenario_create_cart :
  fst (create_cart (snd (create_product widget empty_db)))
  = Response 201 {| Cart.id := 1; Cart.items := [] |}.
Proof. reflexivity. Qed.

Example scenario_add_three :
  fst (add_cart_item 1 (item_of 1 3) shop)
  = Response 200
      {| CartSummary.id := 1;
         CartSummary.items := [item_of 1 3];
         CartSummary.total := PyFloat.literal 2997 2 |}.
Proof. vm_compute. reflexivity. Qed.

Example scenario_add_two_more :
  fst (add_cart_item 1 (item_of 1 2) shop_with_three)
  = Response 200
      {| CartSummary.id := 1;
         CartSummary.items := [item_of 1 5];
         CartSummary.total := PyFloat.literal 4995 2 |}.
Proof. vm_compute. reflexivity. Qed.

Example scenario_remove :
  fst (remove_cart_item 1 1
         (snd (add_cart_item 1 (item_of 1 2) shop_with_three)))
  = Response 200
      {| CartSummary.id := 1;
         CartSummary.items := [];
         CartSummary.total := PyFloat.zero |}.
Proof. vm_compute. reflexivity. Qed.

Example scenario_delete_then_get (foreign_keys : bool) :
  get_product_endpoint 1 (snd (delete_product foreign_keys 1 shop))
  = HTTPException 404 "Product not found".
Proof. now destruct foreign_keys. Qed.

Example broken_line_adds_nothing :
  get_cart_endpoint 1 shop_with_broken_line
  = Response 200
      {| CartSummary.id := 1;
         CartSummary.items := [item_of 1 2; item_of 4 6];
         CartSummary.total := PyFloat.literal 1998 2 |}.
Proof. vm_compute. reflexivity. Qed.

(** Ties go to the even hundredth: [round(0.125, 2)] is [0.12] and
    [round(0.375, 2)] is [0.38]. *)
Example round_ties :
  PyFloat.round (PyFloat.literal 125 3) 2 = PyFloat.literal 12 2
  /\ PyFloat.round (PyFloat.literal 375 3) 2 = PyFloat.literal 38 2.
Proof. split; vm_compute; reflexivity. Qed.

Example update_price :
  fst (update_product 1 new_price shop)
  = Response 200
      (Product.model_validate
         {| ProductORM.id := 1;
            ProductORM.name := "Widget";
            ProductORM.description := None;
            ProductORM.price := PyFloat.literal 125 1;
            ProductORM.discount_percentage := None;
            ProductORM.rating := None;
            ProductORM.stock := None;
            ProductORM.brand := None;
            ProductORM.category := None;
            ProductORM.thumbnail := None;
            ProductORM.images := None |}).
Proof. vm_compute. reflexivity. Qed.

(** ** What every run keeps *)

Lemma next_id_bound (ids : list Z) (x : Z) : In x ids -> x < next_id ids.
Proof.
  unfold next_id. induction ids as [|y ids IH]; [contradiction|].
  cbn [fold_right In]. intros [->|H]; [lia|]. specialize (IH H). lia.
Qed.

Lemma next_id_fresh (ids : list Z) : ~ In (next_id ids) ids.
Proof. intros H. apply next_id_bound in H. lia. Qed.

Lemma NoDup_map_snoc {A B} (f : A -> B) (l : list A) (x : A) :
  NoDup (map f l) -> ~ In (f x) (map f l) -> NoDup (map f (l ++ [x])).
Proof.
  intros Hnd Hx. rewrite map_app. simpl.
  apply NoDup_app; [exact Hnd|repeat constructor; simpl; tauto|].
  intros y Hy [<-|[]]. contradiction.
Qed.

Lemma lines_filter (db : Db) (g : CartItemORM.t -> bool) (c p : Z) :
  lines (set_cart_items db (filter g (cart_items db))) c p
  = filter g (lines db c p).
Proof.
  unfold lines. cbn [set_cart_items cart_items].
  induction (cart_items db) as [|ci l IH]; simpl; [reflexivity|].
  destruct (g ci) eqn:Eg; simpl;
    destruct
      ((CartItemORM.cart_id ci =? c) && (CartItemORM.product_id ci =? p));
    simpl; rewrite ?Eg, IH; reflexivity.
Qed.

Lemma filter_length_le {A} (g : A -> bool) (l : list A) :
  (List.length (filter g l) <= List.length l)%nat.
Proof. induction l as [|x l IH]; simpl; [lia|]. destruct (g x); simpl; lia. Qed.

Lemma delete_cart_items_one_line (db : Db) (items : list CartItemORM.t) :
  one_line_per_pair db -> one_line_per_pair (delete_cart_items db items).
Proof.
  intros Inv c p. unfold delete_cart_items. rewrite lines_filter.
  pose proof
    (filter_length_le (fun ci => negb (keyed_in items ci)) (lines db c p)).
  specialize (Inv c p). lia.
Qed.

Lemma one_line_same_items (db db' : Db) :
  cart_items db' = cart_items db ->
  one_line_per_pair db -> one_line_per_pair db'.
Proof. intros E Inv c p. unfold lines. rewrite E. apply Inv. Qed.

Lemma handle_one_line (foreign_keys : bool) (r : request) (db : Db) :
  one_line_per_pair db -> one_line_per_pair (handle foreign_keys r db).
Proof.
  intros Inv.
  destruct r as [payload|pid payload|pid| |cid item|cid pid|cid|pid|pid];
    cbn [handle].
  - apply (one_line_same_items db); [|exact Inv]. unfold create_product.
    destruct (ProductCreate.name payload), (ProductCreate.price payload),
      (ProductCreate.valid payload); reflexivity.
  - apply (one_line_same_items db); [|exact Inv]. unfold update_product.
    destruct (ProductUpdate.valid payload); [|reflexivity]. cbn [negb].
    destruct (get_product db pid); [|reflexivity].
    destruct (ProductObject.flush _); reflexivity.
  - unfold delete_product. destruct (get_product db pid) as [product|];
      [|exact Inv].
    destruct (foreign_keys && _); [exact Inv|]. cbn [snd].
    apply (one_line_same_items
             (delete_cart_items db (ProductORM_items db product)));
      [reflexivity|]. now apply delete_cart_items_one_line.
  - exact Inv.
  - now apply add_cart_item_keeps_one_line.
  - unfold remove_cart_item.
    destruct (get_cart db cid) as [cart|]; [|exact Inv].
    cbn [snd]. destruct (find _ _); [|exact Inv].
    now apply delete_cart_items_one_line.
  - unfold delete_cart. destruct (get_cart db cid) as [cart|]; [|exact Inv].
    cbn [snd].
    apply (one_line_same_items (delete_cart_items db (CartORM_items db cart)));
      [reflexivity|]. now apply delete_cart_items_one_line.
  - apply (one_line_same_items db); [|exact Inv]. unfold add_favorite.
    destruct (get_product db pid); [|reflexivity].
    destruct (first_favorite db pid); reflexivity.
  - apply (one_line_same_items db); [|exact Inv]. unfold remove_favorite.
    destruct (first_favorite db pid); reflexivity.
Qed.

Lemma update_quantity_keys (db : Db) (item_id q : Z) :
  map CartItemORM.id (cart_items (update_quantity db item_id q))
  = map CartItemORM.id (cart_items db).
Proof.
  unfold update_quantity. cbn [set_cart_items cart_items]. rewrite map_map.
  apply map_ext. intros ci. now destruct (CartItemORM.id ci =? item_id).
Qed.

Lemma write_product_keys (db : Db) (p : ProductORM.t) :
  map ProductORM.id (products (write_product db p))
  = map ProductORM.id (products db).
Proof.
  unfold write_product. cbn [set_products products]. rewrite map_map.
  apply map_ext. intros r.
  destruct (Z.eqb_spec (ProductORM.id r) (ProductORM.id p)); congruence.
Qed.

Lemma first_favorite_none (db : Db) (product_id : Z) :
  first_favorite db product_id = None ->
  ~ In product_id (map FavoriteORM.product_id (favorites db)).
Proof.
  unfold first_favorite. intros Hnone Hin. apply in_map_iff in Hin.
  destruct Hin as [f [E Hf]]. apply (find_none _ _ Hnone) in Hf.
  rewrite E, Z.eqb_refl in Hf. discriminate Hf.
Qed.

Lemma create_product_schema (payload : ProductCreate.t) (db : Db) :
  schema_ok db -> schema_ok (snd (create_product payload db)).
Proof.
  intros [Hp Hc Hi Hf Hu]. unfold create_product.
  destruct (ProductCreate.name payload) as [name|]; [|now constructor].
  destruct (ProductCreate.price payload) as [price|]; [|now constructor].
  destruct (ProductCreate.valid payload); [|now constructor].
  constructor; cbn [snd set_products products carts cart_items favorites];
    try assumption.
  apply NoDup_map_snoc; [exact Hp|]. apply next_id_fresh.
Qed.

Lemma update_product_schema
  (product_id : Z) (payload : ProductUpdate.t) (db : Db) :
  schema_ok db -> schema_ok (snd (update_product product_id payload db)).
Proof.
  intros H. unfold update_product.
  destruct (ProductUpdate.valid payload); [|exact H]. cbn [negb].
  destruct (get_product db product_id); [|exact H].
  destruct (ProductObject.flush _) as [new|]; [|exact H].
  destruct H as [Hp Hc Hi Hf Hu]. cbn [snd].
  constructor; try assumption. now rewrite write_product_keys.
Qed.

Lemma delete_cart_items_schema (db : Db) (items : list CartItemORM.t) :
  schema_ok db -> schema_ok (delete_cart_items db items).
Proof.
  intros [Hp Hc Hi Hf Hu].
  constructor; cbn [delete_cart_items set_cart_items products carts
                    cart_items favorites]; try assumption.
  now apply NoDup_map_filter.
Qed.

Lemma delete_product_schema (foreign_keys : bool) (product_id : Z) (db : Db) :
  schema_ok db -> schema_ok (snd (delete_product foreign_keys product_id db)).
Proof.
  intros H. unfold delete_product.
  destruct (get_product db product_id) as [product|]; [|exact H].
  destruct (foreign_keys && _); [exact H|]. cbn [snd].
  destruct (delete_cart_items_schema db (ProductORM_items db product) H)
    as [Hp Hc Hi Hf Hu].
  constructor; cbn [set_products products carts cart_items favorites];
    try assumption.
  now apply NoDup_map_filter.
Qed.

Lemma create_cart_schema (db : Db) :
  schema_ok db -> schema_ok (snd (create_cart db)).
Proof.
  intros [Hp Hc Hi Hf Hu].
  constructor; cbn [create_cart snd set_carts products carts cart_items
                    favorites]; try assumption.
  apply NoDup_map_snoc; [exact Hc|]. apply next_id_fresh.
Qed.

Lemma add_cart_item_schema (cart_id : Z) (item : CartItem.t) (db : Db) :
  schema_ok db -> schema_ok (snd (add_cart_item cart_id item db)).
Proof.
  intros H.
  destruct (CartItem.valid item) eqn:Hv;
    [|now rewrite add_cart_item_refused by auto].
  destruct (get_cart db cart_id) as [cart|] eqn:Ec;
    [|now rewrite add_cart_item_refused by auto].
  destruct (get_product db (CartItem.product_id item)) as [product|] eqn:Ep;
    [|now rewrite add_cart_item_refused by auto].
  rewrite (add_cart_item_store _ _ _ _ _ Hv Ec Ep).
  destruct H as [Hp Hc Hi Hf Hu].
  destruct (hd_error _) as [existing|].
  - constructor; try assumption. now rewrite update_quantity_keys.
  - constructor; cbn [set_cart_items products carts cart_items favorites];
      try assumption.
    apply NoDup_map_snoc; [exact Hi|]. apply next_id_fresh.
Qed.

Lemma remove_cart_item_schema (cart_id product_id : Z) (db : Db) :
  schema_ok db -> schema_ok (snd (remove_cart_item cart_id product_id db)).
Proof.
  intros H. unfold remove_cart_item.
  destruct (get_cart db cart_id) as [cart|]; [|exact H]. cbn [snd].
  destruct (find _ _); [|exact H]. now apply delete_cart_items_schema.
Qed.

Lemma delete_cart_schema (cart_id : Z) (db : Db) :
  schema_ok db -> schema_ok (snd (delete_cart cart_id db)).
Proof.
  intros H. unfold delete_cart.
  destruct (get_cart db cart_id) as [cart|]; [|exact H]. cbn [snd].
  destruct (delete_cart_items_schema db (CartORM_items db cart) H)
    as [Hp Hc Hi Hf Hu].
  constructor; cbn [set_carts products carts cart_items favorites];
    try assumption.
  now apply NoDup_map_filter.
Qed.

Lemma add_favorite_schema (product_id : Z) (db : Db) :
  schema_ok db -> schema_ok (snd (add_favorite product_id db)).
Proof.
  intros H. unfold add_favorite.
  destruct (get_product db product_id); [|exact H].
  destruct (first_favorite db product_id) eqn:Ef; [exact H|].
  destruct H as [Hp Hc Hi Hf Hu].
  constructor; cbn [snd set_favorites products carts cart_items favorites];
    try assumption.
  - apply NoDup_map_snoc; [exact Hf|]. apply next_id_fresh.
  - apply NoDup_map_snoc; [exact Hu|]. now apply first_favorite_none.
Qed.

Lemma remove_favorite_schema (product_id : Z) (db : Db) :
  schema_ok db -> schema_ok (snd (remove_favorite product_id db)).
Proof.
  intros H. unfold remove_favorite.
  destruct (first_favorite db product_id); [|exact H].
  destruct H as [Hp Hc Hi Hf Hu].
  constructor; cbn [snd set_favorites products carts cart_items favorites];
    try assumption; now apply NoDup_map_filter.
Qed.

Lemma handle_schema (foreign_keys : bool) (r : request) (db : Db) :
  schema_ok db -> schema_ok (handle foreign_keys r db).
Proof.
  destruct r; cbn [handle];
    auto using create_product_schema, update_product_schema,
      delete_product_schema, create_cart_schema, add_cart_item_schema,
      remove_cart_item_schema, delete_cart_schema, add_favorite_schema,
      remove_favorite_schema.
Qed.

(** X12. Every store the service reaches from the empty one satisfies the
    declared constraints and holds at most one line-item per (cart,
    product) pair: the hypotheses of the theorems above are met on every
    run. *)
Lemma run_keeps_constraints (foreign_keys : bool) (requests : list request) :
  schema_ok (run foreign_keys requests empty_db)
  /\ one_line_per_pair (run foreign_keys requests empty_db).
Proof.
  assert (H : forall db,
             schema_ok db /\ one_line_per_pair db ->
             schema_ok (run foreign_keys requests db)
             /\ one_line_per_pair (run foreign_keys requests db)).
  { induction requests as [|r requests IH]; intros db [Hs Hl]; simpl;
      [now split|].
    apply IH. split; [now apply handle_schema|now apply handle_one_line]. }
  apply H. split.
  - constructor; constructor.
  - intros c p. simpl. lia.
Qed.

(** * The other handlers *)

(** ** Shared facts *)

Lemma db_eta (db : Db) :
  {| products := products db; carts := carts db;
     cart_items := cart_items db; favorites := favorites db |} = db.
Proof. now destruct db. Qed.

Lemma find_snoc_fresh {A} (f : A -> bool) (l : list A) (x : A) :
  (forall y, In y l -> f y = false) -> f x = true ->
  find f (l ++ [x]) = Some x.
Proof.
  intros Hl Hx. induction l as [|y l IH]; simpl; [now rewrite Hx|].
  rewrite (Hl y) by now left. apply IH. intros z Hz. apply Hl. now right.
Qed.

Lemma find_snoc_other {A} (f : A -> bool) (l : list A) (x : A) :
  f x = false -> find f (l ++ [x]) = find f l.
Proof.
  intros Hx. induction l as [|y l IH]; simpl; [now rewrite Hx|].
  now destruct (f y).
Qed.

Lemma NoDup_map_inj {A B} (f : A -> B) (l : list A) (x y : A) :
  NoDup (map f l) -> In x l -> In y l -> f x = f y -> x = y.
Proof.
  induction l as [|z l IH]; intros Hnd Hx Hy E; [contradiction|].
  inversion Hnd as [|? ? Hz Hl]; subst.
  destruct Hx as [->|Hx], Hy as [->|Hy]; auto.
  - exfalso. apply Hz. rewrite E. now apply in_map.
  - exfalso. apply Hz. rewrite <- E. now apply in_map.
Qed.

(** Under the primary key, deleting the rows a test selects, each by its
    key, leaves the rows the test does not select. *)
Lemma delete_selected (db : Db) (sel : CartItemORM.t -> bool) :
  NoDup (map CartItemORM.id (cart_items db)) ->
  cart_items (delete_cart_items db (filter sel (cart_items db)))
  = filter (fun ci => negb (sel ci)) (cart_items db).
Proof.
  intros Hpk. unfold delete_cart_items. cbn [set_cart_items cart_items].
  apply filter_ext_in. intros ci Hci. f_equal. unfold keyed_in.
  destruct (sel ci) eqn:Es.
  - apply existsb_exists. exists ci. split; [|apply Z.eqb_refl].
    apply filter_In. now split.
  - apply not_true_is_false. intros H. apply existsb_exists in H.
    destruct H as [d [Hd Ed]]. apply filter_In in Hd. destruct Hd as [Hd Sd].
    apply Z.eqb_eq in Ed.
    rewrite (NoDup_map_inj _ _ d ci Hpk Hd Hci Ed) in Sd. congruence.
Qed.

Lemma get_product_filter_other (db : Db) (rows : list ProductORM.t)
  (gone other : Z) :
  other <> gone ->
  find (fun p => ProductORM.id p =? other)
    (filter (fun p => negb (ProductORM.id p =? gone)) rows)
  = find (fun p => ProductORM.id p =? other) rows.
Proof.
  intros Hne. induction rows as [|r rows IH]; simpl; [reflexivity|].
  destruct (Z.eqb_spec (ProductORM.id r) gone) as [e|_]; simpl.
  - destruct (Z.eqb_spec (ProductORM.id r) other); [congruence|exact IH].
  - destruct (ProductORM.id r =? other); [reflexivity|exact IH].
Qed.

(** ** Creating and reading products *)



(** X2. After a [create_product] that answers 201 with a product,
    [get_product] on the id of that product answers 200 with the same
    product, and on every other id it answers what it answered before
    the creation; on an id with no row it answers 404. *)
Theorem create_then_get_product
  (payload : ProductCreate.t) (db : Db) (created : Product.t) :
  fst (create_product payload db) = Response 201 created ->
  let db' := snd (create_product payload db) in
  get_product_endpoint (Product.id created) db' = Response 200 created
  /\ (forall other, other <> Product.id created ->
      get_product_endpoint other db' = get_product_endpoint other db)
  /\ (forall product_id, ~ product_exists db' product_id ->
      get_product_endpoint product_id db'
      = HTTPException 404 "Product not found").
Proof.
  intros Hr db'. subst db'. revert Hr. unfold create_product.
  destruct (ProductCreate.name payload) as [name|]; [|discriminate].
  destruct (ProductCreate.price payload) as [price|]; [|discriminate].
  destruct (ProductCreate.valid payload); [|discriminate].
  cbn [fst snd]. intros Hr. injection Hr as <-.
  cbn [Product.id Product.model_validate ProductORM.id].
  unfold get_product_endpoint, get_product. cbn [set_products products].
  split; [|split].
  - rewrite find_snoc_fresh; [reflexivity| |apply Z.eqb_refl].
    intros y Hy. apply Z.eqb_neq.
    pose proof (next_id_bound (map ProductORM.id (products db))
                  (ProductORM.id y) (in_map _ _ _ Hy)). lia.
  - intros other Hne. rewrite find_snoc_other; [reflexivity|].
    apply Z.eqb_neq. cbn [ProductORM.id]. congruence.
  - intros product_id Hno.
    destruct (find _ _) as [p|] eqn:Ef; [|reflexivity].
    exfalso. apply Hno. apply get_product_exists.
    unfold get_product. cbn [set_products products]. now rewrite Ef.
Qed.

Lemma create_then_get_product_witness :
  fst (create_product widget empty_db)
  = Response 201 (Product.model_validate widget_row)
  /\ get_product_endpoint 1 (snd (create_product widget empty_db))
     = Response 200 (Product.model_validate widget_row).
Proof.
  assert (H : fst (create_product widget empty_db)
              = Response 201 (Product.model_validate widget_row))
    by reflexivity.
  split; [exact H|].
  exact (proj1 (create_then_get_product widget empty_db _ H)).
Defined.

(** ** Carts *)

Lemma get_cart_endpoint_summary (db : Db) (cart_id : Z) :
  get_cart_endpoint cart_id db
  = match get_cart db cart_id with
    | Some cart => Response 200 (summary_of db cart)
    | None => HTTPException 404 "Cart not found"
    end.
Proof. unfold get_cart_endpoint. now destruct (get_cart db cart_id). Qed.

Lemma get_cart_self (db : Db) (cart : CartORM.t) :
  In cart (carts db) -> get_cart db (CartORM.id cart) = Some cart.
Proof.
  intros Hin. destruct (get_cart db (CartORM.id cart)) as [c|] eqn:E.
  - apply get_cart_id in E. destruct c, cart. simpl in E. now subst.
  - exfalso. apply (proj2 (get_cart_exists db (CartORM.id cart)));
      [now apply in_map|exact E].
Qed.

(** X3. In a store whose line-items all refer to carts of the store,
    [create_cart] answers 201 with an empty cart under a key above every
    cart key there, adds that one cart and touches no other table; a
    [get_cart] on the new key then answers 200 with no items and total
    [0.0], and on any other key what it answered before. *)
Theorem create_cart_then_get (db : Db) :
  (forall ci, In ci (cart_items db) ->
     cart_exists db (CartItemORM.cart_id ci)) ->
  exists cart_id,
    create_cart db
    = (Response 201 {| Cart.id := cart_id; Cart.items := [] |},
       set_carts db (carts db ++ [ {| CartORM.id := cart_id |} ]))
    /\ (forall c, In c (carts db) -> CartORM.id c < cart_id)
    /\ get_cart_endpoint cart_id (snd (create_cart db))
       = Response 200
           {| CartSummary.id := cart_id;
              CartSummary.items := [];
              CartSummary.total := PyFloat.zero |}
    /\ forall other, other <> cart_id ->
         get_cart_endpoint other (snd (create_cart db))
         = get_cart_endpoint other db.
Proof.
  intros Href. exists (next_id (map CartORM.id (carts db))).
  assert (Hfresh : forall c, In c (carts db) ->
            CartORM.id c < next_id (map CartORM.id (carts db))).
  { intros c Hc. apply next_id_bound. now apply in_map. }
  split; [reflexivity|]. split; [exact Hfresh|].
  unfold create_cart. cbn [snd CartORM.id].
  rewrite !get_cart_endpoint_summary. unfold get_cart. cbn [set_carts carts].
  split.
  - rewrite find_snoc_fresh;
      [| intros y Hy; apply Z.eqb_neq; specialize (Hfresh y Hy); lia
       | apply Z.eqb_refl].
    unfold summary_of, calculate_cart_total, CartORM_items.
    cbn [set_carts cart_items CartORM.id].
    replace (filter _ (cart_items db)) with (@nil CartItemORM.t);
      [reflexivity|].
    symmetry. induction (cart_items db) as [|ci l IH]; [reflexivity|].
    cbn [filter].
    destruct (Z.eqb_spec (CartItemORM.cart_id ci)
                (next_id (map CartORM.id (carts db)))) as [e|_].
    + exfalso. pose proof (Href ci (or_introl eq_refl)) as Hc.
      unfold cart_exists in Hc. rewrite e in Hc.
      exact (next_id_fresh _ Hc).
    + apply IH. intros ci' Hci'. apply Href. now right.
  - intros other Hne. rewrite !get_cart_endpoint_summary. unfold get_cart.
    cbn [set_carts carts]. rewrite find_snoc_other
      by (apply Z.eqb_neq; cbn [CartORM.id]; congruence).
    destruct (find _ (carts db)); reflexivity.
Qed.

Lemma create_cart_then_get_witness :
  (forall ci, In ci (cart_items shop_with_three) ->
     cart_exists shop_with_three (CartItemORM.cart_id ci))
  /\ get_cart_endpoint 2 (snd (create_cart shop_with_three))
     = Response 200
         {| CartSummary.id := 2;
            CartSummary.items := [];
            CartSummary.total := PyFloat.zero |}.
Proof.
  assert (H : forall ci, In ci (cart_items shop_with_three) ->
                cart_exists shop_with_three (CartItemORM.cart_id ci)).
  { intros ci [<-|[]]. left. reflexivity. }
  split; [exact H|].
  destruct (create_cart_then_get shop_with_three H) as [cart_id [E [_ [G _]]]].
  assert (Eid : cart_id = 2) by (injection E as E _; now symmetry).
  rewrite Eid in G. exact G.
Defined.

(** X4. [list_carts] answers 200 with one summary for each row of the
    carts table, in table order, and the summary of a cart is the one
    [get_cart] answers for the key of that cart: same items, same
    total. *)
Theorem list_carts_as_get_cart (db : Db) :
  exists summaries,
    list_carts db = Response 200 summaries
    /\ List.length summaries = List.length (carts db)
    /\ map (fun cart => get_cart_endpoint (CartORM.id cart) db) (carts db)
       = map (Response 200) summaries.
Proof.
  eexists. split; [reflexivity|]. split; [now rewrite length_map|].
  rewrite map_map. apply map_ext_in. intros cart Hin.
  rewrite get_cart_endpoint_summary, (get_cart_self db cart Hin).
  reflexivity.
Qed.

Lemma cart_items_filter_view (db : Db) (sel : CartItemORM.t -> bool)
  (cart : CartORM.t) :
  CartORM_items (set_cart_items db (filter sel (cart_items db))) cart
  = filter sel (CartORM_items db cart).
Proof.
  unfold CartORM_items. cbn [set_cart_items cart_items].
  induction (cart_items db) as [|ci l IH]; simpl; [reflexivity|].
  destruct (sel ci) eqn:Es; simpl;
    destruct (CartItemORM.cart_id ci =? CartORM.id cart); simpl;
    rewrite ?Es, IH; reflexivity.
Qed.

(** X5. Under the primary key of [cart_items], [delete_cart] on a cart of
    the store answers 204 and leaves the store without the rows of that
    key in [carts] and without the line-items of that cart, every other
    line-item, the products and the favorites being as before; a
    [get_cart] or a second [delete_cart] on the key then raises 404.  On
    a key with no cart it raises 404 and changes nothing. *)
Theorem delete_cart_cases (db : Db) (cart_id : Z) :
  NoDup (map CartItemORM.id (cart_items db)) ->
  let result := delete_cart cart_id db in
  (cart_exists db cart_id ->
   fst result = Response 204 tt
   /\ carts (snd result)
      = filter (fun c => negb (CartORM.id c =? cart_id)) (carts db)
   /\ cart_items (snd result)
      = filter (fun ci => negb (CartItemORM.cart_id ci =? cart_id))
          (cart_items db)
   /\ products (snd result) = products db
   /\ favorites (snd result) = favorites db
   /\ get_cart_endpoint cart_id (snd result)
      = HTTPException 404 "Cart not found"
   /\ delete_cart cart_id (snd result)
      = (HTTPException 404 "Cart not found", snd result))
  /\ (~ cart_exists db cart_id ->
      result = (HTTPException 404 "Cart not found", db)).
Proof.
  intros Hpk result. subst result. rewrite <- get_cart_exists.
  destruct (get_cart db cart_id) as [cart|] eqn:Ec.
  - pose proof (get_cart_id _ _ _ Ec) as Hid.
    split; [|intros H; exfalso; apply H; congruence]. intros _.
    assert (E : delete_cart cart_id db
                = (Response 204 tt,
                   set_carts (delete_cart_items db (CartORM_items db cart))
                     (filter (fun c => negb (CartORM.id c =? cart_id))
                        (carts db)))).
    { unfold delete_cart. rewrite Ec, Hid. reflexivity. }
    rewrite E. cbn [fst snd].
    set (db' := set_carts _ _).
    assert (Hgone : get_cart db' cart_id = None).
    { unfold get_cart, db'. cbn [set_carts carts].
      destruct (find _ _) as [c|] eqn:Ef; [|reflexivity].
      apply find_some in Ef. destruct Ef as [Hin Hc].
      apply filter_In in Hin. destruct Hin as [_ Hne].
      rewrite Hc in Hne. discriminate Hne. }
    split; [reflexivity|]. split; [reflexivity|]. split.
    { unfold db'. cbn [set_carts cart_items]. rewrite <- Hid.
      apply (delete_selected db
               (fun ci => CartItemORM.cart_id ci =? CartORM.id cart) Hpk). }
    split; [reflexivity|]. split; [reflexivity|]. split.
    + rewrite get_cart_endpoint_summary. now rewrite Hgone.
    + unfold delete_cart. now rewrite Hgone.
  - split; [congruence|]. intros _. unfold delete_cart. now rewrite Ec.
Qed.

Lemma delete_cart_cases_witness :
  NoDup (map CartItemORM.id (cart_items shop_with_three))
  /\ cart_exists shop_with_three 1
  /\ cart_items (snd (delete_cart 1 shop_with_three)) = []
  /\ ~ cart_exists shop_with_three 3
  /\ delete_cart 3 shop_with_three
     = (HTTPException 404 "Cart not found", shop_with_three).
Proof.
  assert (Hpk : NoDup (map CartItemORM.id (cart_items shop_with_three)))
    by (repeat constructor; simpl; tauto).
  assert (Hc : cart_exists shop_with_three 1) by (left; reflexivity).
  assert (Hn : ~ cart_exists shop_with_three 3)
    by (intros [H|[]]; discriminate H).
  split; [exact Hpk|]. split; [exact Hc|].
  split.
  - destruct (proj1 (delete_cart_cases shop_with_three 1 Hpk) Hc)
      as [_ [_ [E _]]]. rewrite E. reflexivity.
  - split; [exact Hn|].
    exact (proj2 (delete_cart_cases shop_with_three 3 Hpk) Hn).
Defined.

Lemma get_cart_endpoint_ext (db db' : Db) (cart_id : Z) :
  get_cart db' cart_id = get_cart db cart_id ->
  products db' = products db ->
  (forall cart, CartORM.id cart = cart_id ->
     CartORM_items db' cart = CartORM_items db cart) ->
  get_cart_endpoint cart_id db' = get_cart_endpoint cart_id db.
Proof.
  intros Hc Hp Hi. rewrite !get_cart_endpoint_summary, Hc.
  destruct (get_cart db cart_id) as [cart|] eqn:Ec; [|reflexivity].
  unfold summary_of, calculate_cart_total, CartItemORM_product, get_product.
  now rewrite Hp, (Hi cart (get_cart_id _ _ _ Ec)).
Qed.

Lemma filter_filter_implied {A} (f g : A -> bool) (l : list A) :
  (forall x, In x l -> f x = true -> g x = true) ->
  filter f (filter g l) = filter f l.
Proof.
  induction l as [|x l IH]; intros H; simpl; [reflexivity|].
  assert (IH' : filter f (filter g l) = filter f l)
    by (apply IH; intros y Hy; apply H; now right).
  destruct (f x) eqn:Ef.
  - rewrite (H x (or_introl eq_refl) Ef). simpl. now rewrite Ef, IH'.
  - destruct (g x); simpl; rewrite ?Ef; exact IH'.
Qed.

Lemma filter_map_fixed {A} (f : A -> bool) (g : A -> A) (l : list A) :
  (forall x, In x l -> f (g x) = f x) ->
  (forall x, In x l -> f x = true -> g x = x) ->
  filter f (map g l) = filter f l.
Proof.
  induction l as [|x l IH]; intros Hf Hg; simpl; [reflexivity|].
  rewrite (Hf x) by now left.
  rewrite IH;
    [|intros y Hy; apply Hf; now right|intros y Hy; apply Hg; now right].
  destruct (f x) eqn:Ef; [|reflexivity].
  now rewrite (Hg x (or_introl eq_refl) Ef).
Qed.

Lemma get_cart_filter_other (rows : list CartORM.t) (gone other : Z) :
  other <> gone ->
  find (fun c => CartORM.id c =? other)
    (filter (fun c => negb (CartORM.id c =? gone)) rows)
  = find (fun c => CartORM.id c =? other) rows.
Proof.
  intros Hne. induction rows as [|r rows IH]; simpl; [reflexivity|].
  destruct (Z.eqb_spec (CartORM.id r) gone) as [e|_]; simpl.
  - destruct (Z.eqb_spec (CartORM.id r) other); [congruence|exact IH].
  - destruct (CartORM.id r =? other); [reflexivity|exact IH].
Qed.

(** The line-items of one cart after the rows keyed like [item], a
    line-item of another cart, are deleted. *)
Lemma delete_line_other_cart
  (db : Db) (item : CartItemORM.t) (cart : CartORM.t) :
  NoDup (map CartItemORM.id (cart_items db)) ->
  In item (cart_items db) ->
  CartItemORM.cart_id item <> CartORM.id cart ->
  CartORM_items (delete_cart_items db [item]) cart = CartORM_items db cart.
Proof.
  intros Hpk Hin Hne. unfold CartORM_items, delete_cart_items.
  cbn [set_cart_items cart_items]. apply filter_filter_implied.
  intros x Hx Hc. rewrite keyed_in_single. apply negb_true_iff.
  apply Z.eqb_neq. intros E.
  rewrite (NoDup_map_inj _ _ item x Hpk Hin Hx E) in Hne.
  apply Z.eqb_eq in Hc. contradiction.
Qed.

Lemma update_line_other_cart (db : Db) (item : CartItemORM.t) (q : Z)
  (cart : CartORM.t) :
  NoDup (map CartItemORM.id (cart_items db)) ->
  In item (cart_items db) ->
  CartItemORM.cart_id item <> CartORM.id cart ->
  CartORM_items (update_quantity db (CartItemORM.id item) q) cart
  = CartORM_items db cart.
Proof.
  intros Hpk Hin Hne. unfold CartORM_items, update_quantity.
  cbn [set_cart_items cart_items]. apply filter_map_fixed.
  - intros x _. now destruct (CartItemORM.id x =? CartItemORM.id item).
  - intros x Hx Hc.
    destruct (Z.eqb_spec (CartItemORM.id x) (CartItemORM.id item)) as [E|_];
      [|reflexivity].
    rewrite (NoDup_map_inj _ _ x item Hpk Hx Hin E) in Hc.
    apply Z.eqb_eq in Hc. contradiction.
Qed.

Lemma found_line_in_cart (db : Db) (cart : CartORM.t) (product_id : Z)
  (item : CartItemORM.t) :
  find (fun ci => CartItemORM.product_id ci =? product_id)
    (CartORM_items db cart) = Some item ->
  In item (cart_items db) /\ CartItemORM.cart_id item = CartORM.id cart.
Proof.
  intros E. apply find_some in E. destruct E as [Hin _].
  unfold CartORM_items in Hin. apply filter_In in Hin.
  now rewrite Z.eqb_eq in Hin.
Qed.

(** X6. Under the primary key of [cart_items], what [get_cart] answers
    for a cart is not changed by [add_cart_item], [remove_cart_item] or
    [delete_cart] on a cart with another key, whatever those calls
    answer. *)
Theorem other_cart_untouched
  (db : Db) (cart_id other : Z) (item : CartItem.t) (product_id : Z) :
  NoDup (map CartItemORM.id (cart_items db)) ->
  other <> cart_id ->
  get_cart_endpoint other (snd (add_cart_item cart_id item db))
  = get_cart_endpoint other db
  /\ get_cart_endpoint other (snd (remove_cart_item cart_id product_id db))
     = get_cart_endpoint other db
  /\ get_cart_endpoint other (snd (delete_cart cart_id db))
     = get_cart_endpoint other db.
Proof.
  intros Hpk Hne. split; [|split].
  - unfold add_cart_item.
    destruct (CartItem.valid item); [|reflexivity]. cbn [negb].
    destruct (get_cart db cart_id) as [cart|] eqn:Ec; [|reflexivity].
    destruct (get_product db (CartItem.product_id item)); [|reflexivity].
    cbn [snd]. pose proof (get_cart_id _ _ _ Ec) as Hid.
    destruct (find _ (CartORM_items db cart)) as [existing|] eqn:Ef.
    + apply found_line_in_cart in Ef. destruct Ef as [Hin Hc].
      apply get_cart_endpoint_ext; [reflexivity|reflexivity|].
      intros c Hcid. apply update_line_other_cart; auto. congruence.
    + apply get_cart_endpoint_ext; [reflexivity|reflexivity|].
      intros c Hcid. unfold CartORM_items. cbn [set_cart_items cart_items].
      rewrite filter_app. cbn [filter CartItemORM.cart_id].
      destruct (Z.eqb_spec (CartORM.id cart) (CartORM.id c));
        [congruence|apply app_nil_r].
  - unfold remove_cart_item.
    destruct (get_cart db cart_id) as [cart|] eqn:Ec; [|reflexivity].
    cbn [snd]. pose proof (get_cart_id _ _ _ Ec) as Hid.
    destruct (find _ (CartORM_items db cart)) as [existing|] eqn:Ef;
      [|reflexivity].
    apply found_line_in_cart in Ef. destruct Ef as [Hin Hc].
    apply get_cart_endpoint_ext; [reflexivity|reflexivity|].
    intros c Hcid. apply delete_line_other_cart; auto. congruence.
  - unfold delete_cart.
    destruct (get_cart db cart_id) as [cart|] eqn:Ec; [|reflexivity].
    cbn [snd]. pose proof (get_cart_id _ _ _ Ec) as Hid.
    apply get_cart_endpoint_ext.
    + unfold get_cart. cbn [set_carts carts delete_cart_items set_cart_items].
      apply get_cart_filter_other. congruence.
    + reflexivity.
    + intros c Hcid. unfold CartORM_items. cbn [set_carts cart_items].
      rewrite (delete_selected db
                 (fun ci => CartItemORM.cart_id ci =? CartORM.id cart) Hpk).
      apply filter_filter_implied. intros x _ Hx.
      apply negb_true_iff, Z.eqb_neq. apply Z.eqb_eq in Hx. congruence.
Qed.

Lemma other_cart_untouched_witness :
  NoDup (map CartItemORM.id (cart_items (snd (create_cart shop_with_three))))
  /\ 2 <> 1
  /\ get_cart_endpoint 2
       (snd (add_cart_item 1 (item_of 1 4) (snd (create_cart shop_with_three))))
     = get_cart_endpoint 2 (snd (create_cart shop_with_three)).
Proof.
  assert (Hpk : NoDup (map CartItemORM.id
                         (cart_items (snd (create_cart shop_with_three)))))
    by (repeat constructor; simpl; tauto).
  split; [exact Hpk|]. split; [lia|].
  exact (proj1 (other_cart_untouched (snd (create_cart shop_with_three))
                  1 2 (item_of 1 4) 1 Hpk ltac:(lia))).
Defined.




(** X8. In a store with at most one line-item per (cart, product) pair,
    [remove_cart_item] on an existing cart leaves the cart without any
    line-item for the product, whatever quantity the line held: the
    quantity is not decremented, the line goes.  A second call finds
    nothing to delete, answers 200 and leaves the store of the first. *)
Theorem remove_cart_item_clears (db : Db) (cart_id product_id : Z) :
  one_line_per_pair db -> cart_exists db cart_id ->
  let db' := snd (remove_cart_item cart_id product_id db) in
  lines db' cart_id product_id = []
  /\ held db' cart_id product_id = 0
  /\ (exists body,
        remove_cart_item cart_id product_id db' = (Response 200 body, db')).
Proof.
  intros Inv Hc db'. apply get_cart_exists in Hc.
  destruct (get_cart db cart_id) as [cart|] eqn:Ec; [|congruence].
  pose proof (get_cart_id _ _ _ Ec) as Hid.
  assert (Hlines : lines db' cart_id product_id = []).
  { subst db'. unfold remove_cart_item. rewrite Ec. cbn [snd].
    rewrite existing_line, Hid. specialize (Inv cart_id product_id).
    destruct (lines db cart_id product_id) as [|e [|e' rest]] eqn:El;
      cbn [hd_error]; [exact El| |simpl in Inv; lia].
    unfold delete_cart_items. rewrite lines_filter, El. cbn [filter].
    rewrite keyed_in_single, Z.eqb_refl. reflexivity. }
  assert (Hcart : get_cart db' cart_id = Some cart).
  { subst db'. unfold remove_cart_item. rewrite Ec. cbn [snd].
    now destruct (find _ _). }
  split; [exact Hlines|]. split; [unfold held; now rewrite Hlines|].
  unfold remove_cart_item at 1. rewrite Hcart.
  rewrite existing_line, Hid, Hlines. cbn [hd_error].
  eexists. reflexivity.
Qed.

Lemma remove_cart_item_clears_witness :
  one_line_per_pair shop_with_three /\ cart_exists shop_with_three 1
  /\ held shop_with_three 1 1 = 3
  /\ lines (snd (remove_cart_item 1 1 shop_with_three)) 1 1 = [].
Proof.
  assert (Inv : one_line_per_pair shop_with_three).
  { intros c p. unfold lines.
    eapply Nat.le_trans; [apply filter_length_le|exact (le_n 1)]. }
  assert (Hc : cart_exists shop_with_three 1) by (left; reflexivity).
  split; [exact Inv|]. split; [exact Hc|]. split; [reflexivity|].
  exact (proj1 (remove_cart_item_clears shop_with_three 1 1 Inv Hc)).
Defined.

(** ** Favorites, the other handlers *)

Lemma favorites_of_member (db : Db) (product_id : Z) (f : FavoriteORM.t) :
  In f (favorites_of db product_id)
  <-> In f (favorites db) /\ FavoriteORM.product_id f = product_id.
Proof. unfold favorites_of. now rewrite filter_In, Z.eqb_eq. Qed.

Lemma filter_filter_negb {A} (f : A -> bool) (l : list A) :
  filter f (filter (fun x => negb (f x)) l) = [].
Proof.
  induction l as [|x l IH]; [reflexivity|]. cbn [filter].
  destruct (f x) eqn:Ef; cbn [negb filter]; rewrite ?Ef; exact IH.
Qed.

(** X9. Under the primary key and the unique constraint of [favorites],
    [remove_favorite] on a product with a favorite row answers 204 and
    takes the rows of that product, and no other row, out of
    [favorites], the other tables being as before; a second call then
    raises 404.  On a product with no favorite row it raises 404
    "Favorite not found" and changes nothing. *)
Theorem remove_favorite_cases (db : Db) (product_id : Z) :
  NoDup (map FavoriteORM.id (favorites db)) ->
  NoDup (map FavoriteORM.product_id (favorites db)) ->
  let result := remove_favorite product_id db in
  (favorites_of db product_id = [] ->
   result = (HTTPException 404 "Favorite not found", db))
  /\ (favorites_of db product_id <> [] ->
      fst result = Response 204 tt
      /\ favorites (snd result)
         = filter (fun f => negb (FavoriteORM.product_id f =? product_id))
             (favorites db)
      /\ favorites_of (snd result) product_id = []
      /\ products (snd result) = products db
      /\ carts (snd result) = carts db
      /\ cart_items (snd result) = cart_items db
      /\ remove_favorite product_id (snd result)
         = (HTTPException 404 "Favorite not found", snd result)).
Proof.
  intros Hpk Huniq result. subst result.
  destruct (favorites_of db product_id) as [|f rest] eqn:Ef.
  - split; [|congruence]. intros _. unfold remove_favorite.
    now rewrite first_favorite_of, Ef.
  - split; [discriminate|]. intros _.
    assert (Hf : In f (favorites db) /\ FavoriteORM.product_id f = product_id)
      by (apply favorites_of_member; rewrite Ef; now left).
    destruct Hf as [Hin Hp].
    assert (E : filter
                  (fun g => negb (FavoriteORM.id g =? FavoriteORM.id f))
                  (favorites db)
                = filter
                    (fun g => negb (FavoriteORM.product_id g =? product_id))
                    (favorites db)).
    { apply filter_ext_in. intros g Hg. f_equal.
      destruct (Z.eqb_spec (FavoriteORM.id g) (FavoriteORM.id f)) as [e|n];
        destruct (Z.eqb_spec (FavoriteORM.product_id g) product_id) as [e'|n'];
        try reflexivity; exfalso.
      - apply n'. now rewrite (NoDup_map_inj _ _ g f Hpk Hg Hin e).
      - apply n. rewrite <- Hp in e'.
        now rewrite (NoDup_map_inj _ _ g f Huniq Hg Hin e'). }
    assert (R : remove_favorite product_id db
                = (Response 204 tt,
                   set_favorites db
                     (filter
                        (fun g =>
                           negb (FavoriteORM.product_id g =? product_id))
                        (favorites db)))).
    { unfold remove_favorite. rewrite first_favorite_of, Ef. cbn [hd_error].
      now rewrite E. }
    rewrite R. cbn [fst snd]. set (db' := set_favorites _ _).
    assert (Hgone : favorites_of db' product_id = []).
    { unfold favorites_of, db'. cbn [set_favorites favorites].
      apply filter_filter_negb. }
    split; [reflexivity|]. split; [reflexivity|]. split; [exact Hgone|].
    split; [reflexivity|]. split; [reflexivity|]. split; [reflexivity|].
    unfold remove_favorite. rewrite first_favorite_of, Hgone. reflexivity.
Qed.

Lemma remove_favorite_cases_witness :
  NoDup (map FavoriteORM.id (favorites shop_with_favorite))
  /\ NoDup (map FavoriteORM.product_id (favorites shop_with_favorite))
  /\ favorites_of shop_with_favorite 1 <> []
  /\ favorites (snd (remove_favorite 1 shop_with_favorite)) = []
  /\ favorites_of shop_with_favorite 2 = []
  /\ remove_favorite 2 shop_with_favorite
     = (HTTPException 404 "Favorite not found", shop_with_favorite).
Proof.
  assert (Hpk : NoDup (map FavoriteORM.id (favorites shop_with_favorite)))
    by (repeat constructor; simpl; tauto).
  assert (Hu : NoDup (map FavoriteORM.product_id
                        (favorites shop_with_favorite)))
    by (repeat constructor; simpl; tauto).
  assert (Hsome : favorites_of shop_with_favorite 1 <> []) by discriminate.
  split; [exact Hpk|]. split; [exact Hu|]. split; [exact Hsome|].
  destruct (remove_favorite_cases shop_with_favorite 1 Hpk Hu)
    as [_ Hfound].
  destruct (Hfound Hsome) as [_ [E _]].
  split; [rewrite E; reflexivity|]. split; [reflexivity|].
  exact (proj1 (remove_favorite_cases shop_with_favorite 2 Hpk Hu) eq_refl).
Defined.

Lemma filter_fresh_favorite (l : list FavoriteORM.t) (new : FavoriteORM.t) :
  FavoriteORM.id new = next_id (map FavoriteORM.id l) ->
  filter (fun f => negb (FavoriteORM.id f =? FavoriteORM.id new)) (l ++ [new])
  = l.
Proof.
  intros Hid. rewrite filter_app. cbn [filter]. rewrite Z.eqb_refl.
  cbn [negb]. rewrite app_nil_r.
  assert (H : forall x, In x l -> FavoriteORM.id x <> FavoriteORM.id new).
  { intros x Hx. rewrite Hid.
    pose proof (next_id_bound (map FavoriteORM.id l) (FavoriteORM.id x)
                  (in_map _ _ _ Hx)). lia. }
  clear Hid. induction l as [|x l IH]; [reflexivity|]. cbn [filter].
  destruct (Z.eqb_spec (FavoriteORM.id x) (FavoriteORM.id new)) as [e|_].
  - exfalso. exact (H x (or_introl eq_refl) e).
  - cbn [negb]. f_equal. apply IH. intros y Hy. apply H. now right.
Qed.

(** X10. For an existing product with no favorite row, [add_favorite]
    followed by [remove_favorite] gives back the store as it was before
    the two calls; the first answers 201 and the second 204. *)
Theorem add_then_remove_favorite (db : Db) (product_id : Z) :
  product_exists db product_id -> favorites_of db product_id = [] ->
  let added := add_favorite product_id db in
  (exists product, fst added = Response 201 product)
  /\ remove_favorite product_id (snd added) = (Response 204 tt, db).
Proof.
  intros Hp Hnone added. subst added. apply get_product_exists in Hp.
  unfold add_favorite.
  destruct (get_product db product_id) as [product|]; [|congruence].
  rewrite first_favorite_of, Hnone. cbn [hd_error fst snd].
  split; [eexists; reflexivity|].
  unfold remove_favorite. rewrite first_favorite_of.
  unfold favorites_of at 1. cbn [set_favorites favorites].
  rewrite filter_app. fold (favorites_of db product_id). rewrite Hnone.
  cbn [filter FavoriteORM.product_id app]. rewrite Z.eqb_refl.
  cbn [hd_error]. f_equal.
  rewrite filter_fresh_favorite by reflexivity.
  unfold set_favorites. cbn [products carts cart_items favorites].
  apply db_eta.
Qed.

Lemma add_then_remove_favorite_witness :
  product_exists shop 1 /\ favorites_of shop 1 = []
  /\ remove_favorite 1 (snd (add_favorite 1 shop)) = (Response 204 tt, shop).
Proof.
  assert (Hp : product_exists shop 1) by (left; reflexivity).
  split; [exact Hp|]. split; [reflexivity|].
  exact (proj2 (add_then_remove_favorite shop 1 Hp eq_refl)).
Defined.



(** ** More that every run keeps *)

Lemma product_exists_filter (db : Db) (gone other : Z) :
  other <> gone -> product_exists db other ->
  In other
    (map ProductORM.id
       (filter (fun p => negb (ProductORM.id p =? gone)) (products db))).
Proof.
  unfold product_exists. rewrite !in_map_iff. intros Hne [p [E Hp]].
  exists p. split; [exact E|]. apply filter_In. split; [exact Hp|].
  apply negb_true_iff, Z.eqb_neq. congruence.
Qed.

Lemma kept_row_not_selected (db : Db) (items : list CartItemORM.t)
  (ci : CartItemORM.t) :
  In ci (cart_items (delete_cart_items db items)) ->
  In ci (cart_items db) /\ ~ In ci items.
Proof.
  intros H. split.
  - unfold delete_cart_items in H. cbn [set_cart_items cart_items] in H.
    now apply filter_In in H.
  - intros Hin. exact (delete_cart_items_gone db items ci Hin H).
Qed.

Lemma handle_lines_refer (foreign_keys : bool) (r : request) (db : Db) :
  lines_refer db -> lines_refer (handle foreign_keys r db).
Proof.
  intros Href.
  destruct r as [payload|pid payload|pid| |cid item|cid pid|cid|pid|pid];
    cbn [handle].
  - unfold create_product.
    destruct (ProductCreate.name payload), (ProductCreate.price payload),
      (ProductCreate.valid payload); try exact Href.
    intros ci Hci. destruct (Href ci Hci) as [Hc Hp]. split; [exact Hc|].
    unfold product_exists. cbn [snd set_products products].
    rewrite map_app. apply in_or_app. now left.
  - unfold update_product.
    destruct (ProductUpdate.valid payload); [|exact Href]. cbn [negb].
    destruct (get_product db pid); [|exact Href].
    destruct (ProductObject.flush _) as [new|]; [|exact Href].
    intros ci Hci. destruct (Href ci Hci) as [Hc Hp]. split; [exact Hc|].
    unfold product_exists. cbn [snd]. now rewrite write_product_keys.
  - unfold delete_product.
    destruct (get_product db pid) as [product|] eqn:Ep; [|exact Href].
    destruct (foreign_keys && _); [exact Href|]. cbn [snd].
    intros ci Hci. cbn [set_products cart_items] in Hci.
    apply kept_row_not_selected in Hci. destruct Hci as [Hci Hnot].
    destruct (Href ci Hci) as [Hc Hp]. split; [exact Hc|].
    unfold product_exists. cbn [set_products products delete_cart_items
      set_cart_items]. apply product_exists_filter; [|exact Hp].
    intros E. apply Hnot. unfold ProductORM_items. apply filter_In.
    split; [exact Hci|]. now apply Z.eqb_eq.
  - intros ci Hci. destruct (Href ci Hci) as [Hc Hp]. split; [|exact Hp].
    unfold cart_exists. cbn [create_cart snd set_carts carts].
    rewrite map_app. apply in_or_app. now left.
  - destruct (CartItem.valid item) eqn:Hv;
      [|now rewrite add_cart_item_refused by auto].
    destruct (get_cart db cid) as [cart|] eqn:Ec;
      [|now rewrite add_cart_item_refused by auto].
    destruct (get_product db (CartItem.product_id item)) as [product|] eqn:Ep;
      [|now rewrite add_cart_item_refused by auto].
    rewrite (add_cart_item_store _ _ _ _ _ Hv Ec Ep).
    destruct (hd_error _) as [existing|]; intros ci Hci.
    + unfold update_quantity in Hci. cbn [set_cart_items cart_items] in Hci.
      apply in_map_iff in Hci. destruct Hci as [old [E Hold]].
      destruct (Href old Hold) as [Hc Hp].
      destruct (CartItemORM.id old =? CartItemORM.id existing); subst ci;
        split; assumption.
    + cbn [set_cart_items cart_items] in Hci. apply in_app_or in Hci.
      destruct Hci as [Hci|[<-|[]]]; [exact (Href ci Hci)|].
      cbn [CartItemORM.cart_id CartItemORM.product_id]. split.
      * change (cart_exists db cid). apply get_cart_exists. congruence.
      * change (product_exists db (CartItem.product_id item)).
        apply get_product_exists. congruence.
  - unfold remove_cart_item.
    destruct (get_cart db cid) as [cart|]; [|exact Href]. cbn [snd].
    destruct (find _ _); [|exact Href].
    intros ci Hci. apply kept_row_not_selected in Hci. now apply Href.
  - unfold delete_cart.
    destruct (get_cart db cid) as [cart|] eqn:Ec; [|exact Href]. cbn [snd].
    intros ci Hci. cbn [set_carts cart_items] in Hci.
    apply kept_row_not_selected in Hci. destruct Hci as [Hci Hnot].
    destruct (Href ci Hci) as [Hc Hp]. split; [|exact Hp].
    unfold cart_exists in *. cbn [set_carts carts delete_cart_items
      set_cart_items]. rewrite in_map_iff in *.
    destruct Hc as [c [E Hc]]. exists c. split; [exact E|].
    apply filter_In. split; [exact Hc|]. apply negb_true_iff, Z.eqb_neq.
    intros E'. apply Hnot. unfold CartORM_items. apply filter_In.
    split; [exact Hci|]. apply Z.eqb_eq. congruence.
  - unfold add_favorite. destruct (get_product db pid); [|exact Href].
    destruct (first_favorite db pid); exact Href.
  - unfold remove_favorite. destruct (first_favorite db pid); exact Href.
Qed.

Lemma updated_row_valid (old new : ProductORM.t) (payload : ProductUpdate.t) :
  product_row_valid old = true ->
  ProductUpdate.valid payload = true ->
  ProductObject.flush
    (fold_left ProductObject.setattr
       (ProductUpdate.model_dump_exclude_unset payload)
       (ProductObject.load old)) = Some new ->
  product_row_valid new = true.
Proof.
  unfold product_row_valid, ProductUpdate.valid.
  intros Ho Hv. apply andb_true_iff in Ho. destruct Ho as [Ho Hop].
  apply andb_true_iff in Ho. destruct Ho as [Hon Hod].
  apply andb_true_iff in Hv. destruct Hv as [Hv Hvp].
  apply andb_true_iff in Hv. destruct Hv as [Hvn Hvd].
  unfold ProductUpdate.model_dump_exclude_unset. cbn [filter].
  destruct (ProductUpdate.is_set payload ProductUpdate.Name);
  destruct (ProductUpdate.is_set payload ProductUpdate.Description);
  destruct (ProductUpdate.is_set payload ProductUpdate.Price);
  cbn [map fold_left ProductUpdate.dump_field ProductObject.setattr
       ProductObject.load ProductObject.flush ProductObject.name
       ProductObject.price ProductObject.description ProductObject.row];
  destruct (ProductUpdate.name payload) as [n|];
  destruct (ProductUpdate.price payload) as [x|];
  try discriminate; intros E; injection E as <-;
  cbn [ProductORM.name ProductORM.description ProductORM.price];
  cbn [ProductUpdate.name_valid ProductUpdate.price_valid] in Hvn, Hvp;
  unfold ProductUpdate.description_valid in Hvd;
  rewrite ?Hon, ?Hop, ?Hvn, ?Hvp; cbn [andb];
  rewrite ?andb_true_r; try exact Hod; try exact Hvd.
Qed.

Lemma handle_data_valid (foreign_keys : bool) (r : request) (db : Db) :
  data_valid db -> data_valid (handle foreign_keys r db).
Proof.
  intros [Hp Hq].
  destruct r as [payload|pid payload|pid| |cid item|cid pid|cid|pid|pid];
    cbn [handle].
  - unfold create_product.
    destruct (ProductCreate.name payload) as [name|] eqn:En;
      [|now split].
    destruct (ProductCreate.price payload) as [price|] eqn:Epr;
      [|now split].
    destruct (ProductCreate.valid payload) eqn:Hv; [|now split].
    split; [|exact Hq]. intros p Hin. cbn [snd set_products products] in Hin.
    apply in_app_or in Hin. destruct Hin as [Hin|[<-|[]]]; [now apply Hp|].
    unfold ProductCreate.valid in Hv. rewrite En, Epr in Hv. exact Hv.
  - unfold update_product.
    destruct (ProductUpdate.valid payload) eqn:Hv; [|now split]. cbn [negb].
    destruct (get_product db pid) as [old|] eqn:Eo; [|now split].
    destruct (ProductObject.flush _) as [new|] eqn:Ef; [|now split].
    split; [|exact Hq]. intros p Hin. unfold write_product in Hin.
    cbn [snd set_products products] in Hin. apply in_map_iff in Hin.
    destruct Hin as [r [E Hr]].
    destruct (ProductORM.id r =? ProductORM.id new); subst p;
      [|now apply Hp].
    apply (updated_row_valid old new payload); auto.
    apply Hp. unfold get_product in Eo. now apply find_some in Eo.
  - unfold delete_product.
    destruct (get_product db pid) as [product|]; [|now split].
    destruct (foreign_keys && _); [now split|]. cbn [snd]. split.
    + intros p Hin. cbn [set_products products] in Hin.
      apply filter_In in Hin. now apply Hp.
    + intros ci Hin. cbn [set_products cart_items] in Hin.
      apply kept_row_not_selected in Hin. now apply Hq.
  - now split.
  - destruct (CartItem.valid item) eqn:Hv;
      [|rewrite add_cart_item_refused by auto; now split].
    destruct (get_cart db cid) as [cart|] eqn:Ec;
      [|rewrite add_cart_item_refused by auto; now split].
    destruct (get_product db (CartItem.product_id item)) as [product|] eqn:Ep;
      [|rewrite add_cart_item_refused by auto; now split].
    rewrite (add_cart_item_store _ _ _ _ _ Hv Ec Ep).
    apply Z.ltb_lt in Hv.
    destruct (hd_error _) as [existing|] eqn:Ee; (split; [exact Hp|]);
      intros ci Hci.
    + unfold update_quantity in Hci. cbn [set_cart_items cart_items] in Hci.
      apply in_map_iff in Hci. destruct Hci as [old [E Hold]].
      destruct (CartItemORM.id old =? CartItemORM.id existing); subst ci;
        [|now apply Hq].
      cbn [CartItemORM.set_quantity CartItemORM.quantity].
      assert (1 <= CartItemORM.quantity existing); [|lia].
      apply Hq. destruct (lines db cid (CartItem.product_id item))
        as [|e rest] eqn:El; [discriminate|].
      injection Ee as <-.
      assert (H : In e (lines db cid (CartItem.product_id item)))
        by (rewrite El; now left).
      unfold lines in H. now apply filter_In in H.
    + cbn [set_cart_items cart_items] in Hci. apply in_app_or in Hci.
      destruct Hci as [Hci|[<-|[]]]; [now apply Hq|].
      cbn [CartItemORM.quantity]. lia.
  - unfold remove_cart_item.
    destruct (get_cart db cid) as [cart|]; [|now split]. cbn [snd].
    destruct (find _ _); [|now split].
    split; [exact Hp|]. intros ci Hci.
    apply kept_row_not_selected in Hci. now apply Hq.
  - unfold delete_cart.
    destruct (get_cart db cid) as [cart|]; [|now split]. cbn [snd].
    split; [exact Hp|]. intros ci Hci. cbn [set_carts cart_items] in Hci.
    apply kept_row_not_selected in Hci. now apply Hq.
  - unfold add_favorite. destruct (get_product db pid); [|now split].
    destruct (first_favorite db pid); now split.
  - unfold remove_favorite. destruct (first_favorite db pid); now split.
Qed.

(** X13. On every store the service reaches from the empty one, each
    line-item refers to a cart and to a product of the store: the
    deletions carry their line-items with them.  So the product of a
    line-item is always found, and the totals count every line. *)
Theorem run_keeps_references (foreign_keys : bool) (requests : list request) :
  let db := run foreign_keys requests empty_db in
  lines_refer db
  /\ (forall ci, In ci (cart_items db) ->
      exists product, CartItemORM_product db ci = Some product)
  /\ without_broken_lines db = db.
Proof.
  cbv zeta.
  assert (H : forall db, lines_refer db ->
                lines_refer (run foreign_keys requests db)).
  { induction requests as [|r requests IH]; intros db Hd; simpl;
      [exact Hd|]. apply IH. now apply handle_lines_refer. }
  assert (Href : lines_refer (run foreign_keys requests empty_db))
    by (apply H; intros ci []).
  set (db := run foreign_keys requests empty_db) in *.
  assert (Hfound : forall ci, In ci (cart_items db) ->
            exists product, CartItemORM_product db ci = Some product).
  { intros ci Hci. destruct (Href ci Hci) as [_ Hp].
    apply get_product_exists in Hp. unfold CartItemORM_product.
    destruct (get_product db (CartItemORM.product_id ci)) as [p|];
      [now exists p|congruence]. }
  split; [exact Href|]. split; [exact Hfound|].
  unfold without_broken_lines.
  replace (filter _ (cart_items db)) with (cart_items db).
  - unfold set_cart_items. apply db_eta.
  - symmetry. apply forallb_filter_id. apply forallb_forall.
    intros ci Hci. destruct (Hfound ci Hci) as [p Ep]. now rewrite Ep.
Qed.

(** X14. On every store the service reaches from the empty one, each
    product row satisfies the field constraints of [ProductBase] ([name]
    of 1 to 120 characters, [description] absent or of at most 500,
    [price] above zero) and each line-item has a quantity of at least
    one: what the response models check again is already true of what
    was stored. *)
Theorem run_keeps_valid_data (foreign_keys : bool) (requests : list request) :
  data_valid (run foreign_keys requests empty_db).
Proof.
  assert (H : forall db, data_valid db ->
                data_valid (run foreign_keys requests db)).
  { induction requests as [|r requests IH]; intros db Hd; simpl;
      [exact Hd|]. apply IH. now apply handle_data_valid. }
  apply H. split; intros x [].
Qed.

(** ** The listing, page after page *)

Lemma firstn_plus {A} (a b : nat) (l : list A) :
  firstn (a + b) l = firstn a l ++ firstn b (skipn a l).
Proof.
  revert l. induction a as [|a IH]; intros l; [reflexivity|].
  destruct l as [|x l]; simpl; [now rewrite firstn_nil|]. now rewrite IH.
Qed.

Lemma chunks_cover {A} (size count : nat) (l : list A) :
  flat_map (fun i => firstn size (skipn (i * size) l)) (seq 0 count)
  = firstn (count * size) l.
Proof.
  induction count as [|k IH]; [reflexivity|].
  rewrite seq_S, flat_map_app, IH. cbn [flat_map Nat.add].
  rewrite app_nil_r. rewrite <- firstn_plus. f_equal. lia.
Qed.

Lemma list_products_valid
  (backslash_escapes : bool) (q : option string) (page limit : Z) (db : Db) :
  1 <= page -> 1 <= limit <= 100 ->
  list_products backslash_escapes q page limit db
  = let query := product_query backslash_escapes db q in
    let total := Z.of_nat (List.length query) in
    Response 200
      {| ProductPage.page := page;
         ProductPage.pages :=
           if total =? 0 then 0 else (total + limit - 1) / limit;
         ProductPage.limit := limit;
         ProductPage.total := total;
         ProductPage.products :=
           map Product.model_validate
             (firstn (Z.to_nat limit)
                (skipn (Z.to_nat ((page - 1) * limit)) query)) |}.
Proof.
  intros Hp Hl. unfold list_products.
  replace ((1 <=? page) && (1 <=? limit) && (limit <=? 100)) with true
    by (symmetry; rewrite !andb_true_iff; repeat split; apply Z.leb_le; lia).
  reflexivity.
Qed.

(** X15. For a limit in [1, 100], the pages 1 to [ceil(total / limit)]
    of [list_products], put one after the other, are the filtered result
    set: every matching product is on exactly one of them, in the order
    of the result set. *)
Theorem pages_cover_result_set
  (backslash_escapes : bool) (q : option string) (limit : Z) (db : Db) :
  1 <= limit <= 100 ->
  let query := product_query backslash_escapes db q in
  let pages := ceil_ratio (Z.of_nat (List.length query)) limit in
  flat_map
    (fun i => page_products backslash_escapes q (Z.of_nat i + 1) limit db)
    (seq 0 (Z.to_nat pages))
  = map Product.model_validate query.
Proof.
  intros Hl query pages.
  assert (E : forall i,
            page_products backslash_escapes q (Z.of_nat i + 1) limit db
            = map Product.model_validate
                (firstn (Z.to_nat limit)
                   (skipn (i * Z.to_nat limit) query))).
  { intros i. unfold page_products.
    rewrite list_products_valid by lia. cbv zeta.
    cbn [ProductPage.products]. fold query. do 3 f_equal. nia. }
  rewrite (flat_map_ext _ _ E).
  rewrite flat_map_concat_map, <- (map_map _ (map Product.model_validate)).
  rewrite <- concat_map, <- flat_map_concat_map, chunks_cover.
  f_equal. apply firstn_all2.
  pose proof (ceil_ratio_least (Z.of_nat (List.length query)) limit
                ltac:(lia)) as [Hc _].
  fold pages in Hc. nia.
Qed.

Lemma pages_cover_result_set_witness :
  1 <= 100 <= 100
  /\ flat_map (fun i => page_products true None (Z.of_nat i + 1) 100
                          many_products)
       (seq 0 4)
     = map Product.model_validate (products many_products).
Proof.
  split; [lia|].
  exact (pages_cover_result_set true None 100 many_products ltac:(lia)).
Defined.

(** ** The copy script *)









(** ** Deleting a product, seen from the carts *)

Lemma line_amounts_ext (db db' : Db) (items : list CartItemORM.t) :
  (forall item, In item items ->
     CartItemORM_product db' item = CartItemORM_product db item) ->
  line_amounts db' items = line_amounts db items.
Proof.
  induction items as [|item items IH]; intros H; [reflexivity|].
  cbn [line_amounts flat_map]. rewrite (H item) by now left.
  f_equal. apply IH. intros i Hi. apply H. now right.
Qed.

Lemma pydantic_items_filter (product_id : Z) (items : list CartItemORM.t) :
  pydantic_items
    (filter (fun ci => negb (CartItemORM.product_id ci =? product_id)) items)
  = filter (fun i => negb (CartItem.product_id i =? product_id))
      (pydantic_items items).
Proof.
  unfold pydantic_items. induction items as [|ci l IH]; [reflexivity|].
  cbn [filter map CartItem.product_id].
  destruct (CartItemORM.product_id ci =? product_id); cbn [negb map];
    now rewrite IH.
Qed.

(** X18. Under the primary key of [cart_items], after [delete_product]
    on an existing product with no favorite row, [get_cart] answers for
    every cart the summary it answered before without the line-items of
    that product: the other items in their order, and as total the
    rounded sum of their amounts. *)
Theorem delete_product_in_carts
  (foreign_keys : bool) (db : Db) (product_id cart_id : Z) :
  NoDup (map CartItemORM.id (cart_items db)) ->
  product_exists db product_id -> favorites_of db product_id = [] ->
  get_cart_endpoint cart_id (snd (delete_product foreign_keys product_id db))
  = match get_cart db cart_id with
    | Some cart =>
        let kept :=
          filter (fun ci => negb (CartItemORM.product_id ci =? product_id))
            (CartORM_items db cart) in
        Response 200
          {| CartSummary.id := cart_id;
             CartSummary.items :=
               filter (fun i => negb (CartItem.product_id i =? product_id))
                 (pydantic_items (CartORM_items db cart));
             CartSummary.total :=
               PyFloat.round (float_sum (line_amounts db kept)) 2 |}
    | None => HTTPException 404 "Cart not found"
    end.
Proof.
  intros Hpk Hp Hfav.
  apply get_product_exists in Hp.
  destruct (get_product db product_id) as [product|] eqn:Ep; [|congruence].
  pose proof (get_product_id _ _ _ Ep) as Hid.
  assert (Hcarts : carts (snd (delete_product foreign_keys product_id db))
                   = carts db).
  { unfold delete_product. rewrite Ep.
    now destruct (foreign_keys && _). }
  assert (Hitems : cart_items (snd (delete_product foreign_keys product_id db))
                   = filter
                       (fun ci =>
                          negb (CartItemORM.product_id ci =? product_id))
                       (cart_items db)).
  { unfold delete_product. rewrite Ep.
    destruct (foreign_keys && _) eqn:Efk.
    - exfalso. apply andb_true_iff in Efk. destruct Efk as [_ Efk].
      apply existsb_exists in Efk. destruct Efk as [f [Hf Ef]].
      cbn [set_products favorites delete_cart_items set_cart_items] in Hf.
      assert (H : In f (favorites_of db product_id)).
      { apply favorites_of_member. split; [exact Hf|].
        apply Z.eqb_eq in Ef. congruence. }
      rewrite Hfav in H. exact H.
    - cbn [snd set_products cart_items]. rewrite <- Hid.
      apply (delete_selected db
               (fun ci => CartItemORM.product_id ci =? ProductORM.id product)
               Hpk). }
  assert (Hprods : forall other, other <> product_id ->
            get_product (snd (delete_product foreign_keys product_id db)) other
            = get_product db other).
  { intros other Hne. unfold delete_product. rewrite Ep.
    destruct (foreign_keys && _); [reflexivity|].
    unfold get_product. cbn [snd set_products products delete_cart_items
      set_cart_items]. rewrite Hid.
    now apply (get_product_filter_other db). }
  set (db' := snd (delete_product foreign_keys product_id db)) in *.
  rewrite get_cart_endpoint_summary.
  assert (Hc : get_cart db' cart_id = get_cart db cart_id)
    by (unfold get_cart; now rewrite Hcarts).
  rewrite Hc. destruct (get_cart db cart_id) as [cart|] eqn:Ec;
    [|reflexivity].
  assert (Hview : CartORM_items db' cart
                  = filter
                      (fun ci =>
                         negb (CartItemORM.product_id ci =? product_id))
                      (CartORM_items db cart)).
  { unfold CartORM_items at 1. rewrite Hitems.
    exact (cart_items_filter_view db _ cart). }
  unfold summary_of. rewrite (get_cart_id _ _ _ Ec). cbv zeta. f_equal.
  f_equal.
  - rewrite Hview. apply pydantic_items_filter.
  - unfold calculate_cart_total. rewrite calculate_cart_total_loop, Hview.
    unfold float_sum. f_equal. f_equal. apply line_amounts_ext.
    intros item Hin. apply filter_In in Hin. destruct Hin as [_ Hne].
    apply negb_true_iff, Z.eqb_neq in Hne. now apply Hprods.
Qed.

Lemma delete_product_in_carts_witness :
  NoDup (map CartItemORM.id (cart_items shop_with_three))
  /\ product_exists shop_with_three 1
  /\ favorites_of shop_with_three 1 = []
  /\ get_cart_endpoint 1 (snd (delete_product true 1 shop_with_three))
     = Response 200
         {| CartSummary.id := 1;
            CartSummary.items := [];
            CartSummary.total := PyFloat.zero |}.
Proof.
  assert (Hpk : NoDup (map CartItemORM.id (cart_items shop_with_three)))
    by (repeat constructor; simpl; tauto).
  assert (Hp : product_exists shop_with_three 1) by (left; reflexivity).
  split; [exact Hpk|]. split; [exact Hp|]. split; [reflexivity|].
  exact (delete_product_in_carts true shop_with_three 1 1 Hpk Hp eq_refl).
Defined.

Lemma update_product_frame_witness :
  ProductUpdate.valid new_price = true
  /\ no_null_given new_price
  /\ exists new,
       update_product 1 new_price shop
       = (Response 200 (Product.model_validate new), write_product shop new)
       /\ ProductORM.price new = PyFloat.literal 125 1
       /\ ProductORM.name new = "Widget"%string.
Proof.
  assert (Hn : no_null_given new_price)
    by (split; [discriminate|intros _; discriminate]).
  split; [reflexivity|]. split; [exact Hn|].
  destruct (update_product_frame shop 1 new_price eq_refl Hn)
    as [new [E [_ [_ [Hname [_ [Hprice _]]]]]]].
  exists new. split; [exact E|].
  split; [now injection Hprice|now injection Hname].
Defined.

(** ** An update that sets nothing *)

Lemma write_product_same_row (db : Db) (old : ProductORM.t) :
  NoDup (map ProductORM.id (products db)) ->
  In old (products db) ->
  write_product db old = db.
Proof.
  intros Hpk Hin. unfold write_product.
  replace (map _ (products db)) with (products db).
  - unfold set_products. apply db_eta.
  - rewrite <- (map_id (products db)) at 1. apply map_ext_in.
    intros r Hr.
    destruct (Z.eqb_spec (ProductORM.id r) (ProductORM.id old)) as [E|_];
      [|reflexivity].
    exact (NoDup_map_inj _ _ r old Hpk Hr Hin E).
Qed.

(** X21. Under the primary key of [products], [update_product] with a
    body that sets no field answers 200 with the product as it is stored
    and leaves the store as it was; on an id with no row it raises
    404. *)
Theorem update_product_nothing_set
  (db : Db) (product_id : Z) (payload : ProductUpdate.t) :
  NoDup (map ProductORM.id (products db)) ->
  ProductUpdate.fields_set payload = [] ->
  ProductUpdate.valid payload = true ->
  update_product product_id payload db
  = match get_product db product_id with
    | Some old => (Response 200 (Product.model_validate old), db)
    | None => (HTTPException 404 "Product not found", db)
    end.
Proof.
  intros Hpk Hset Hv. unfold update_product. rewrite Hv. cbn [negb].
  destruct (get_product db product_id) as [old|] eqn:Eo; [|reflexivity].
  unfold ProductUpdate.model_dump_exclude_unset, ProductUpdate.is_set.
  rewrite Hset. cbn [existsb filter map fold_left ProductObject.load
    ProductObject.flush ProductObject.name ProductObject.price
    ProductObject.description ProductObject.row].
  assert (Hin : In old (products db))
    by (unfold get_product in Eo; now apply find_some in Eo).
  replace {| ProductORM.id := ProductORM.id old;
             ProductORM.name := ProductORM.name old;
             ProductORM.description := ProductORM.description old;
             ProductORM.price := ProductORM.price old;
             ProductORM.discount_percentage :=
               ProductORM.discount_percentage old;
             ProductORM.rating := ProductORM.rating old;
             ProductORM.stock := ProductORM.stock old;
             ProductORM.brand := ProductORM.brand old;
             ProductORM.category := ProductORM.category old;
             ProductORM.thumbnail := ProductORM.thumbnail old;
             ProductORM.images := ProductORM.images old |}
    with old by now destruct old.
  now rewrite (write_product_same_row db old Hpk Hin).
Qed.

Lemma update_product_nothing_set_witness :
  NoDup (map ProductORM.id (products shop))
  /\ ProductUpdate.fields_set empty_update = []
  /\ ProductUpdate.valid empty_update = true
  /\ update_product 1 empty_update shop
     = (Response 200 (Product.model_validate widget_row), shop)
  /\ update_product 6 empty_update shop
     = (HTTPException 404 "Product not found", shop).
Proof.
  assert (Hpk : NoDup (map ProductORM.id (products shop)))
    by (repeat constructor; simpl; tauto).
  split; [exact Hpk|]. split; [reflexivity|]. split; [reflexivity|].
  split.
  - exact (update_product_nothing_set shop 1 empty_update Hpk eq_refl eq_refl).
  - exact (update_product_nothing_set shop 6 empty_update Hpk eq_refl eq_refl).
Defined.
